(** * gym-safety: the grid navigation environment

    A shallow embedding of [gym_safety/envs/gridnavigation.py]
    ([GridNavigationEnv]) and the properties of its configuration,
    grid generation, transition and observation code.

    Modelling conventions.
    - Python integers are [Z]; the probabilities [rho] and
      [stochasticity] are Python floats and are modelled as rationals [Q]
      (no NaN, no rounding: the code only compares them).
    - The object [self] together with numpy's module-level generator
      [np.random] is the record [World]; every method is a state
      transformer over it that may raise, and a raised exception keeps the
      mutations made before it, as in Python.
    - numpy arrays are flat lists with a shape; Python and numpy indexing
      (negative indices wrap once, anything else raises [IndexError]) is
      written out.
    - A random generator is a tape of raw words and a cursor: each draw
      reads the word under the cursor and advances it. *)

From Stdlib Require Import ZArith QArith Lia Ascii.
From stdpp Require Import base option list gmap strings.

Local Open Scope Z_scope.

(** ** Exceptions and the state-and-exception monad *)

Inductive Exception : Type :=
  | ValueError
  | IndexError
  | KeyError
  | GymError.   (* gym.error.Error *)

Inductive Result (A : Type) : Type :=
  | Ok (a : A)
  | Raise (e : Exception).
Arguments Ok {A} a.
Arguments Raise {A} e.

Definition is_ok {A} (r : Result A) : bool :=
  match r with Ok _ => true | Raise _ => false end.

(** [St S A]: a computation over a mutable state [S]. *)
Definition St (S A : Type) : Type := S -> Result A * S.

Definition ret {S A} (a : A) : St S A := fun s => (Ok a, s).

Definition raise {S A} (e : Exception) : St S A := fun s => (Raise e, s).

Definition bind {S A B} (m : St S A) (k : A -> St S B) : St S B :=
  fun s => match m s with
           | (Ok a, s') => k a s'
           | (Raise e, s') => (Raise e, s')
           end.

Definition gets {S A} (f : S -> A) : St S A := fun s => (Ok (f s), s).

Definition modify {S} (f : S -> S) : St S unit := fun s => (Ok tt, f s).

(** A pure computation that may raise, run inside [St]. *)
Definition lift {S A} (r : Result A) : St S A := fun s => (r, s).

Declare Scope st_scope.
Delimit Scope st_scope with st.
Notation "x <- m ;; k" := (bind m (fun x => k))
  (at level 100, m at next level, right associativity) : st_scope.
Notation "m ;;; k" := (bind m (fun _ => k))
  (at level 100, right associativity) : st_scope.

(** [for x in xs: acc = body(x, acc)] *)
Fixpoint for_each {S A B} (xs : list A) (acc : B) (body : A -> B -> St S B)
  : St S B :=
  match xs with
  | [] => ret acc
  | x :: xs' => bind (body x acc) (fun acc' => for_each xs' acc' body)
  end.

(** Python's [range(n)]: empty when [n <= 0]. *)
Definition range (n : Z) : list Z := seqZ 0 n.

(** ** Python lists and numpy arrays *)

(** Index normalisation shared by lists and array axes. *)
Definition norm_index (len k : Z) : Result Z :=
  if (0 <=? k) && (k <? len) then Ok k
  else if (- len <=? k) && (k <? 0) then Ok (k + len)
  else Raise IndexError.

(** [l[k] = v] *)
Definition list_setitem {A} (l : list A) (k : Z) (v : A) : Result (list A) :=
  match norm_index (Z.of_nat (length l)) k with
  | Ok i => Ok (<[Z.to_nat i := v]> l)
  | Raise e => Raise e
  end.

(** A two-dimensional array (for the image, of colour triples). *)
Record ndarray2 (A : Type) : Type := mk_ndarray2 {
  nd_data : list A;
  nd_rows : Z;
  nd_cols : Z
}.
Arguments mk_ndarray2 {A} _ _ _.
Arguments nd_data {A} _.
Arguments nd_rows {A} _.
Arguments nd_cols {A} _.

(** [np.array(l).reshape((r, c))] *)
Definition reshape {A} (l : list A) (r c : Z) : Result (ndarray2 A) :=
  if (0 <=? r) && (0 <=? c) && (Z.of_nat (length l) =? r * c)
  then Ok (mk_ndarray2 l r c)
  else Raise ValueError.

(** [a[i, j]] *)
Definition getitem2 {A} (a : ndarray2 A) (i j : Z) : Result A :=
  match norm_index (nd_rows a) i with
  | Raise e => Raise e
  | Ok i' =>
    match norm_index (nd_cols a) j with
    | Raise e => Raise e
    | Ok j' =>
      match nd_data a !! Z.to_nat (i' * nd_cols a + j') with
      | Some x => Ok x
      | None => Raise IndexError
      end
    end
  end.

(** [a[i, j] = v] (for the image: [a[i, j, :] = v]) *)
Definition setitem2 {A} (a : ndarray2 A) (i j : Z) (v : A)
  : Result (ndarray2 A) :=
  match norm_index (nd_rows a) i with
  | Raise e => Raise e
  | Ok i' =>
    match norm_index (nd_cols a) j with
    | Raise e => Raise e
    | Ok j' =>
      Ok (mk_ndarray2 (<[Z.to_nat (i' * nd_cols a + j') := v]> (nd_data a))
                      (nd_rows a) (nd_cols a))
    end
  end.

(** [np.zeros(shape)] for a two-dimensional shape of cells [z]. *)
Definition zeros2 {A} (z : A) (r c : Z) : Result (ndarray2 A) :=
  if (0 <=? r) && (0 <=? c)
  then Ok (mk_ndarray2 (replicate (Z.to_nat (r * c)) z) r c)
  else Raise ValueError.

(** [np.argwhere(a == x)]: the indices of the matching cells, row-major. *)
Fixpoint argwhere_from {A} `{EqDecision A} (cols k : Z) (l : list A) (x : A)
  : list (Z * Z) :=
  match l with
  | [] => []
  | y :: l' =>
    (if decide (y = x) then [(k / cols, k mod cols)] else [])
      ++ argwhere_from cols (k + 1) l' x
  end.

Definition argwhere {A} `{EqDecision A} (a : ndarray2 A) (x : A)
  : list (Z * Z) :=
  argwhere_from (nd_cols a) 0 (nd_data a) x.

(** [l[0]] *)
Definition first_item {A} (l : list A) : Result A :=
  match l with
  | [] => Raise IndexError
  | x :: _ => Ok x
  end.

(** ** The random generator

    [RandomState] stands for numpy's generator object.  The contract the
    environment relies on is kept: [randint(low, high)] raises unless
    [low < high] and otherwise returns an integer of [[low, high)];
    [binomial(1, p)] raises unless [0 <= p <= 1] and otherwise returns 0 or
    1 by inversion of one uniform variate of [[0, 1)], so never 1 for
    [p = 0] and never 0 for [p = 1].  How a raw word becomes a value is
    numpy's business; the general properties below use the contract only,
    and hold for every tape. *)

Record RandomState : Type := mk_rs {
  tape : nat -> N;
  cursor : nat
}.

(** One word consumed. *)
Definition advance (g : RandomState) : RandomState :=
  mk_rs (tape g) (S (cursor g)).

(** The word under the cursor. *)
Definition raw (g : RandomState) : Z := Z.of_N (tape g (cursor g)).

(** A uniform variate of [[0, 1)] with 53 bits. *)
Definition random_sample (g : RandomState) : Q :=
  Qmake (raw g mod 2 ^ 53) (2 ^ 53).

(** [x < y] on rationals, as a boolean. *)
Definition Qltb (x y : Q) : bool := negb (Qle_bool y x).

(** [randint(low, high)] *)
Definition randint (low high : Z) : St RandomState Z :=
  fun g =>
    if high <=? low then (Raise ValueError, g)
    else (Ok (low + raw g mod (high - low)), advance g).

(** [binomial(1, p)] *)
Definition binomial1 (p : Q) : St RandomState Z :=
  fun g =>
    if Qltb p 0 || Qltb 1 p then (Raise ValueError, g)
    else
      let u := random_sample g in
      if Qle_bool p (1 # 2)
      then (Ok (if Qltb (1 - p) u then 1 else 0), advance g)
      else (Ok (1 - (if Qltb p u then 1 else 0)), advance g).

(** ** The environment object *)

(** A colour triple of [FG_COLORS]. *)
Definition color : Type := Z * Z * Z.

Inductive Observation : Type :=
  | OneHot (obs : list Z)
  | Image (img : ndarray2 color).

(** The [info] dictionary: its only key is ['constraint_costs']. *)
Record Info : Type := mk_info {
  constraint_costs : list Z
}.

(** The attributes of [self] that the methods read or write, and the
    process-wide generator [np.random] of the numpy module, which is not an
    attribute of the object.  [action_space], [observation_space],
    [display_size] and [cumulat_constraint] are written once and never read
    by the methods below; they are left out. *)
Record World : Type := mk_world {
  gridsize : Z;
  rho : Q;
  stochasticity : Q;
  state : Z * Z;
  start_state : Z * Z;
  goal_state : Z * Z;
  img_observation : bool;
  art : ndarray2 ascii;
  obstacle_states : list (Z * Z);
  art_img : ndarray2 color;
  np_random : RandomState;          (* self.np_random *)
  module_random : RandomState       (* np.random *)
}.

Definition set_gridsize (v : Z) (w : World) : World :=
  mk_world v (rho w) (stochasticity w) (state w) (start_state w)
    (goal_state w) (img_observation w) (art w) (obstacle_states w)
    (art_img w) (np_random w) (module_random w).
Definition set_rho (v : Q) (w : World) : World :=
  mk_world (gridsize w) v (stochasticity w) (state w) (start_state w)
    (goal_state w) (img_observation w) (art w) (obstacle_states w)
    (art_img w) (np_random w) (module_random w).
Definition set_stochasticity (v : Q) (w : World) : World :=
  mk_world (gridsize w) (rho w) v (state w) (start_state w)
    (goal_state w) (img_observation w) (art w) (obstacle_states w)
    (art_img w) (np_random w) (module_random w).
Definition set_state (v : Z * Z) (w : World) : World :=
  mk_world (gridsize w) (rho w) (stochasticity w) v (start_state w)
    (goal_state w) (img_observation w) (art w) (obstacle_states w)
    (art_img w) (np_random w) (module_random w).
Definition set_start_state (v : Z * Z) (w : World) : World :=
  mk_world (gridsize w) (rho w) (stochasticity w) (state w) v
    (goal_state w) (img_observation w) (art w) (obstacle_states w)
    (art_img w) (np_random w) (module_random w).
Definition set_goal_state (v : Z * Z) (w : World) : World :=
  mk_world (gridsize w) (rho w) (stochasticity w) (state w) (start_state w)
    v (img_observation w) (art w) (obstacle_states w)
    (art_img w) (np_random w) (module_random w).
Definition set_img_observation (v : bool) (w : World) : World :=
  mk_world (gridsize w) (rho w) (stochasticity w) (state w) (start_state w)
    (goal_state w) v (art w) (obstacle_states w)
    (art_img w) (np_random w) (module_random w).
Definition set_art (v : ndarray2 ascii) (w : World) : World :=
  mk_world (gridsize w) (rho w) (stochasticity w) (state w) (start_state w)
    (goal_state w) (img_observation w) v (obstacle_states w)
    (art_img w) (np_random w) (module_random w).
Definition set_obstacle_states (v : list (Z * Z)) (w : World) : World :=
  mk_world (gridsize w) (rho w) (stochasticity w) (state w) (start_state w)
    (goal_state w) (img_observation w) (art w) v
    (art_img w) (np_random w) (module_random w).
Definition set_art_img (v : ndarray2 color) (w : World) : World :=
  mk_world (gridsize w) (rho w) (stochasticity w) (state w) (start_state w)
    (goal_state w) (img_observation w) (art w) (obstacle_states w)
    v (np_random w) (module_random w).
Definition set_np_random (v : RandomState) (w : World) : World :=
  mk_world (gridsize w) (rho w) (stochasticity w) (state w) (start_state w)
    (goal_state w) (img_observation w) (art w) (obstacle_states w)
    (art_img w) v (module_random w).
Definition set_module_random (v : RandomState) (w : World) : World :=
  mk_world (gridsize w) (rho w) (stochasticity w) (state w) (start_state w)
    (goal_state w) (img_observation w) (art w) (obstacle_states w)
    (art_img w) (np_random w) v.

(** A draw from [self.np_random]. *)
Definition self_np_random {A} (m : St RandomState A) : St World A :=
  fun w => let (r, g) := m (np_random w) in (r, set_np_random g w).

(** A draw from the module-level [np.random]. *)
Definition np_random_module {A} (m : St RandomState A) : St World A :=
  fun w => let (r, g) := m (module_random w) in (r, set_module_random g w).

Definition EMPTY_CHAR : ascii := " ".
Definition OBSTACLE_CHAR : ascii := "#".
Definition PLAYER_CHAR : ascii := "P".
Definition GOAL_CHAR : ascii := "G".

Definition FG_COLORS : gmap ascii color :=
  {[ EMPTY_CHAR := (0, 0, 0);
     GOAL_CHAR := (0, 1, 0);
     PLAYER_CHAR := (1, 0, 0);
     OBSTACLE_CHAR := (0, 0, 1) ]}.

Definition ACTIONS : gmap Z (Z * Z) :=
  {[ 0 := (-1, 0);
     1 := (0, -1);
     2 := (1, 0);
     3 := (0, 1) ]}.

(** [d[k]] on a dictionary. *)
Definition dict_getitem {K V} `{Countable K} (d : gmap K V) (k : K)
  : Result V :=
  match d !! k with
  | Some v => Ok v
  | None => Raise KeyError
  end.

Local Open Scope st_scope.

Definition build_asci_art (gridsize : Z) (rho : Q) : St World (list ascii) :=
  let first_row := replicate (Z.to_nat gridsize) " "%char in
  alpha <- self_np_random (randint 0 gridsize) ;;
  first_row <- lift (list_setitem first_row alpha GOAL_CHAR) ;;
  let last_row := replicate (Z.to_nat gridsize) " "%char in
  last_row <- lift (list_setitem last_row (-1) PLAYER_CHAR) ;;
  let art := [first_row] in
  art <- for_each (range (gridsize - 2)) art (fun row_idx art =>
    let row := replicate (Z.to_nat gridsize) " "%char in
    row <- for_each (range gridsize) row (fun col_idx row =>
      b <- self_np_random (binomial1 rho) ;;
      if negb (b =? 0)
      then lift (list_setitem row col_idx OBSTACLE_CHAR)
      else ret row) ;;
    ret (art ++ [row])) ;;
  let art := art ++ [last_row] in
  ret (concat art).

Definition get_art_img : St World (ndarray2 color) :=
  n <- gets gridsize ;;
  img <- lift (zeros2 (0, 0, 0) n n) ;;
  for_each (range n) img (fun i img =>
    for_each (range n) img (fun j img =>
      a <- gets art ;;
      ch <- lift (getitem2 a i j) ;;
      c <- lift (if decide (ch = PLAYER_CHAR)
                 then dict_getitem FG_COLORS EMPTY_CHAR
                 else dict_getitem FG_COLORS ch) ;;
      lift (setitem2 img i j c))).

Definition make_game (gridsize : Z) (rho stochasticity : Q)
    (img_observation : bool) : St World unit :=
  modify (set_gridsize gridsize) ;;;
  modify (set_rho rho) ;;;
  modify (set_stochasticity stochasticity) ;;;
  flat <- build_asci_art gridsize rho ;;
  a <- lift (reshape flat gridsize gridsize) ;;
  modify (set_art a) ;;;
  modify (set_img_observation img_observation) ;;;
  modify (set_start_state (gridsize - 1, gridsize - 1)) ;;;
  a <- gets art ;;
  goal <- lift (first_item (argwhere a GOAL_CHAR)) ;;
  modify (set_goal_state goal) ;;;
  start <- gets start_state ;;
  modify (set_state start) ;;;
  a <- gets art ;;
  modify (set_obstacle_states (argwhere a OBSTACLE_CHAR)) ;;;
  img <- get_art_img ;;
  modify (set_art_img img).

Definition state_to_img : St World (ndarray2 color) :=
  img <- gets art_img ;;
  st <- gets state ;;
  let '(i, j) := st in
  c <- lift (dict_getitem FG_COLORS PLAYER_CHAR) ;;
  lift (setitem2 img i j c).

Definition state_to_oh : St World (list Z) :=
  n <- gets gridsize ;;
  let obs := replicate (Z.to_nat (n * n)) 0 in
  st <- gets state ;;
  let '(state_i, state_j) := st in
  lift (list_setitem obs (state_i * n + state_j) 1).

Definition observe : St World Observation :=
  img_obs <- gets img_observation ;;
  if img_obs : bool
  then img <- state_to_img ;; ret (Image img)
  else obs <- state_to_oh ;; ret (OneHot obs).

Definition reset : St World Observation :=
  start <- gets start_state ;;
  modify (set_state start) ;;;
  observe.

(** [(a == b).all()] on two arrays of two integers. *)
Definition array_eq_all (a b : Z * Z) : bool :=
  (a.1 =? b.1) && (a.2 =? b.2).

(** [a.tolist() in l] *)
Definition list_contains (l : list (Z * Z)) (a : Z * Z) : bool :=
  existsb (array_eq_all a) l.

Definition in_grid (n : Z) (p : Z * Z) : bool :=
  negb ((p.1 <? 0) || (p.1 >=? n) || (p.2 <? 0) || (p.2 >=? n)).

Definition step (action : Z) : St World (Observation * Z * bool * Info) :=
  p <- gets stochasticity ;;
  b <- np_random_module (binomial1 p) ;;
  action <- (if negb (b =? 0)
             then np_random_module (randint 0 4)
             else ret action) ;;
  st <- gets state ;;
  delta <- lift (dict_getitem ACTIONS action) ;;
  let new_state := (st.1 + delta.1, st.2 + delta.2) in
  n <- gets gridsize ;;
  (if in_grid n new_state then modify (set_state new_state) else ret tt) ;;;
  st <- gets state ;;
  goal <- gets goal_state ;;
  obstacles <- gets obstacle_states ;;
  let '(reward, done, info) :=
    if array_eq_all st goal then (1000, true, mk_info [0])
    else if list_contains obstacles st then (-1, false, mk_info [1])
    else (-1, false, mk_info [0]) in
  obs <- observe ;;
  ret (obs, reward, done, info).

(** [seeding.np_random] refuses a negative seed with [gym.error.Error];
    otherwise it returns a fresh generator and the seed it used.  Which
    ones is the library's business, so that part is a parameter.  The
    refusal comes before the assignment, so [self.np_random] is then
    unchanged.  Only integer seeds are modelled, not [seed(None)]. *)
Section Seeding.
Variable seeding_np_random : Z -> RandomState * Z.

Definition seed (s : Z) : St World (list Z) :=
  if s <? 0 then raise GymError
  else
    let '(g, s') := seeding_np_random s in
    modify (set_np_random g) ;;;
    ret [s'].

(** [__init__]: the attributes start as [None] (any value here: each is
    assigned by [make_game] before it is read), then [seed(42)] and
    [make_game()] with its default arguments. *)
Definition init : St World unit :=
  seed 42 ;;;
  make_game 32 (3 # 10) (1 # 10) false.
End Seeding.

(** What a call returns or raises, and the world it leaves. *)
Definition run {A} (m : St World A) (w : World) : Result A := (m w).1.

Definition exec {A} (m : St World A) (w : World) : World := (m w).2.

(** ** Concrete worlds *)

(** A generator that reads the same word forever. *)
Definition constant_tape (x : N) : RandomState := mk_rs (fun _ => x) 0.

(** The object before [make_game] has run: every attribute is still
    unset. *)
Definition unset (g m : RandomState) : World :=
  mk_world 0 0 0 (0, 0) (0, 0) (0, 0) false
    (mk_ndarray2 [] 0 0) [] (mk_ndarray2 [] 0 0) g m.

(** A 3 by 3 grid without obstacles and without stochasticity; the goal is
    at (0, 1), the start at (2, 2). *)
Definition grid3 : World :=
  exec (make_game 3 0 0 false) (unset (constant_tape 1) (constant_tape 0)).

(** A 3 by 3 grid whose interior row is all obstacles. *)
Definition grid3_obstacles : World :=
  exec (make_game 3 1 0 true) (unset (constant_tape 1) (constant_tape 0)).

(** A 3 by 3 grid with stochasticity one half; only the module-level
    generator is left open. *)
Definition grid3_stochastic (m : RandomState) : World :=
  exec (make_game 3 0 (1 # 2) false) (unset (constant_tape 1) m).

(** The world after a list of steps, whatever they returned. *)
Definition walk (actions : list Z) (w : World) : World :=
  fold_left (fun w a => exec (step a) w) actions w.

(** A seeding function to run examples with: the tape counts up from the
    seed, and the seed used is the seed given. *)
Definition demo_seeding (s : Z) : RandomState * Z :=
  (mk_rs (fun k => (Z.to_N s + N.of_nat k)%N) 0, s).

(** One run of a process: seed, configure, one step. *)
Definition episode : St World (list (Observation * Z * bool * Info)) :=
  seed demo_seeding 42 ;;;
  make_game 3 0 (1 # 2) false ;;;
  r <- step 1 ;;
  ret [r].

(** * Specification vocabulary

    Predicates and functions in which the properties below are stated. *)

(** A row of the interior: [gridsize] cells, each empty or an obstacle. *)
Definition interior_row (n : Z) (row : list ascii) : Prop :=
  length row = Z.to_nat n /\
  Forall (fun c => c = EMPTY_CHAR \/ c = OBSTACLE_CHAR) row.

(** The rows [build_asci_art] assembles: the goal row, the interior rows
    and the start row. *)
Definition art_rows (n alpha : Z) (rows : list (list ascii)) : Prop :=
  exists mids,
    rows = <[Z.to_nat alpha := GOAL_CHAR]> (replicate (Z.to_nat n) EMPTY_CHAR)
             :: mids
             ++ [<[Z.to_nat (n - 1) := PLAYER_CHAR]>
                   (replicate (Z.to_nat n) EMPTY_CHAR)] /\
    length mids = Z.to_nat (n - 2) /\
    Forall (interior_row n) mids.

(** What a cell of a generated grid may hold, by position. *)
Definition cell_kind (n alpha i j : Z) (c : ascii) : Prop :=
  if i =? 0 then c = (if j =? alpha then GOAL_CHAR else EMPTY_CHAR)
  else if i =? n - 1 then c = (if j =? n - 1 then PLAYER_CHAR else EMPTY_CHAR)
  else c = EMPTY_CHAR \/ c = OBSTACLE_CHAR.

(** A generated grid: [gridsize] by [gridsize], with the goal at column
    [alpha] of row 0. *)
Definition generated_grid (n alpha : Z) (a : ndarray2 ascii) : Prop :=
  nd_rows a = n /\ nd_cols a = n /\
  Z.of_nat (length (nd_data a)) = n * n /\
  0 <= alpha < n /\
  forall i j, 0 <= i < n -> 0 <= j < n ->
    exists c, getitem2 a i j = Ok c /\ cell_kind n alpha i j c.

(** An [n] by [n] array whose data has [n * n] cells. *)
Definition shaped {A} (n : Z) (a : ndarray2 A) : Prop :=
  0 <= n /\ nd_rows a = n /\ nd_cols a = n /\
  Z.of_nat (length (nd_data a)) = n * n.

(** The characters a grid is drawn with. *)
Definition legend (ch : ascii) : Prop :=
  ch = EMPTY_CHAR \/ ch = GOAL_CHAR \/ ch = PLAYER_CHAR \/ ch = OBSTACLE_CHAR.

(** The colour [get_art_img] gives a cell: the start marker is drawn as an
    empty cell. *)
Definition cell_color (ch : ascii) : color :=
  if decide (ch = GOAL_CHAR) then (0, 1, 0)
  else if decide (ch = OBSTACLE_CHAR) then (0, 0, 1)
  else (0, 0, 0).

(** [img] shows cell [(i, j)] of [a] in its colour. *)
Definition pixel_ok (a : ndarray2 ascii) (img : ndarray2 color) (i j : Z)
  : Prop :=
  exists ch, getitem2 a i j = Ok ch /\ getitem2 img i j = Ok (cell_color ch).

(** [img] is the picture of the grid [a], without the player. *)
Definition static_image (n : Z) (a : ndarray2 ascii) (img : ndarray2 color)
  : Prop :=
  shaped n img /\
  forall i j, 0 <= i < n -> 0 <= j < n -> pixel_ok a img i j.

(** What the transition code relies on: the shapes agree with [gridsize],
    the goal and the obstacles are those of the grid, and the agent and the
    start are on the grid.  [make_game] establishes it; [step] and [reset]
    keep it. *)
Definition configured (w : World) : Prop :=
  shaped (gridsize w) (art w) /\
  shaped (gridsize w) (art_img w) /\
  first_item (argwhere (art w) GOAL_CHAR) = Ok (goal_state w) /\
  obstacle_states w = argwhere (art w) OBSTACLE_CHAR /\
  in_grid (gridsize w) (start_state w) = true /\
  in_grid (gridsize w) (state w) = true.

(** [FG_COLORS[PLAYER_CHAR]], red. *)
Definition PLAYER_COLOR : color := (1, 0, 0).

(** The one-hot vector of a position. *)
Definition one_hot (n : Z) (p : Z * Z) : list Z :=
  <[Z.to_nat (p.1 * n + p.2) := 1]> (replicate (Z.to_nat (n * n)) 0).

(** The image of a position over a cached image. *)
Definition player_image (img : ndarray2 color) (p : Z * Z) : ndarray2 color :=
  mk_ndarray2
    (<[Z.to_nat (p.1 * nd_cols img + p.2) := PLAYER_COLOR]> (nd_data img))
    (nd_rows img) (nd_cols img).

(** The observation returned for a world, by its mode. *)
Definition observation_of (w : World) : Observation :=
  if img_observation w
  then Image (player_image (art_img w) (state w))
  else OneHot (one_hot (gridsize w) (state w)).

(** The action that is carried out: the first two statements of [step],
    as a computation on the generator they draw from. *)
Definition effective_action (p : Q) (action : Z) : St RandomState Z :=
  b <- binomial1 p ;;
  if negb (b =? 0) then randint 0 4 else ret action.

(** The movement rule. *)
Definition moved (n : Z) (st delta : Z * Z) : Z * Z :=
  let new_state := (st.1 + delta.1, st.2 + delta.2) in
  if in_grid n new_state then new_state else st.

(** Reward, [done] and [info] for the position reached. *)
Definition outcome (w : World) : Z * bool * Info :=
  if array_eq_all (state w) (goal_state w) then (1000, true, mk_info [0])
  else if list_contains (obstacle_states w) (state w)
       then (-1, false, mk_info [1])
       else (-1, false, mk_info [0]).

(** The world after a step that carried out a move by [delta] and left the
    module generator at [g]. *)
Definition after_step (delta : Z * Z) (g : RandomState) (w : World) : World :=
  set_state (moved (gridsize w) (state w) delta) (set_module_random g w).

(** The table [ACTIONS], read as a function. *)
Definition action_delta (a : Z) : option (Z * Z) :=
  if a =? 0 then Some (-1, 0)
  else if a =? 1 then Some (0, -1)
  else if a =? 2 then Some (1, 0)
  else if a =? 3 then Some (0, 1)
  else None.

(** Two runs of a computation from related states: the same result, and
    related states again. *)
Definition same_run {S A} (R : S -> S -> Prop) (m : St S A) (s1 s2 : S)
  : Prop :=
  (m s1).1 = (m s2).1 /\ R (m s1).2 (m s2).2.

(** A computation that changes nothing but [self.np_random]. *)
Definition np_random_only {A} (m : St World A) : Prop :=
  forall s, (m s).2 = set_np_random (np_random (m s).2) s.

(** * Properties *)

(** ** How the monad computes *)

Lemma bind_ok {S A B} (m : St S A) (k : A -> St S B) s a s' :
  m s = (Ok a, s') -> bind m k s = k a s'.
Proof. intros E. unfold bind. now rewrite E. Qed.

Lemma bind_raise {S A B} (m : St S A) (k : A -> St S B) s e s' :
  m s = (Raise e, s') -> bind m k s = (Raise e, s').
Proof. intros E. unfold bind. now rewrite E. Qed.

(** A loop whose body keeps an invariant indexed by the iteration count
    runs to completion, and the invariant holds at the end. *)
Lemma for_each_inv {S A B} (I : nat -> B -> S -> Prop) (xs : list A)
    (body : A -> B -> St S B) :
  (forall k x acc s, xs !! k = Some x -> I k acc s ->
     exists acc' s', body x acc s = (Ok acc', s') /\ I (Datatypes.S k) acc' s') ->
  forall acc s, I O acc s ->
  exists acc' s', for_each xs acc body s = (Ok acc', s') /\ I (length xs) acc' s'.
Proof.
  revert I. induction xs as [|x xs IH]; intros I Hbody acc s H0.
  - exists acc, s. split; [reflexivity|exact H0].
  - destruct (Hbody O x acc s eq_refl H0) as (acc1 & s1 & E1 & I1).
    destruct (IH (fun k => I (Datatypes.S k))
                 (fun k y => Hbody (Datatypes.S k) y) acc1 s1 I1)
      as (acc2 & s2 & E2 & I2).
    exists acc2, s2. split; [|exact I2].
    cbn [for_each]. rewrite (bind_ok _ _ _ _ _ E1). exact E2.
Qed.

Lemma range_lookup (n : Z) (k : nat) (x : Z) :
  range n !! k = Some x -> x = Z.of_nat k /\ Z.of_nat k < n.
Proof. unfold range. intros H. apply lookup_seqZ in H. lia. Qed.

Lemma range_length (n : Z) : length (range n) = Z.to_nat n.
Proof. apply length_seqZ. Qed.

(** ** The generator's contract *)

Lemma Qltb_true (x y : Q) : Qltb x y = true <-> (x < y)%Q.
Proof.
  unfold Qltb. rewrite negb_true_iff.
  split.
  - intros H. apply Qnot_le_lt. intros L. apply Qle_bool_iff in L. congruence.
  - intros H. destruct (Qle_bool y x) eqn:E; [|reflexivity].
    apply Qle_bool_iff in E. exfalso. exact (Qlt_not_le _ _ H E).
Qed.

Lemma Qltb_false (x y : Q) : Qltb x y = false <-> (y <= x)%Q.
Proof.
  unfold Qltb. rewrite negb_false_iff. apply Qle_bool_iff.
Qed.

Lemma random_sample_range (g : RandomState) :
  (0 <= random_sample g)%Q /\ (random_sample g < 1)%Q.
Proof.
  unfold random_sample, Qle, Qlt. cbn [Qnum Qden].
  pose proof (Z.mod_pos_bound (raw g) (2 ^ 53) ltac:(lia)) as B.
  change (Z.pos (2 ^ 53)) with (2 ^ 53). lia.
Qed.

Lemma randint_ok (low high : Z) (g : RandomState) :
  low < high ->
  exists v, randint low high g = (Ok v, advance g) /\ low <= v < high.
Proof.
  intros H. unfold randint.
  destruct (high <=? low) eqn:E; [lia|].
  eexists. split; [reflexivity|].
  pose proof (Z.mod_pos_bound (raw g) (high - low) ltac:(lia)). lia.
Qed.

Lemma randint_raise (low high : Z) (g : RandomState) :
  high <= low -> randint low high g = (Raise ValueError, g).
Proof.
  intros H. unfold randint. destruct (high <=? low) eqn:E; [reflexivity|lia].
Qed.

Lemma binomial1_ok (p : Q) (g : RandomState) :
  (0 <= p)%Q -> (p <= 1)%Q ->
  exists b, binomial1 p g = (Ok b, advance g) /\ (b = 0 \/ b = 1).
Proof.
  intros H0 H1. unfold binomial1.
  apply Qltb_false in H0. apply Qltb_false in H1. rewrite H0, H1. cbn.
  destruct (Qle_bool p (1 # 2)).
  - destruct (Qltb (1 - p) (random_sample g)); eexists; split; eauto.
  - destruct (Qltb p (random_sample g)); eexists; split; eauto.
Qed.

Lemma binomial1_raise (p : Q) (g : RandomState) :
  (p < 0)%Q \/ (1 < p)%Q -> binomial1 p g = (Raise ValueError, g).
Proof.
  intros H. unfold binomial1.
  destruct H as [H|H]; apply Qltb_true in H; rewrite H;
    [|rewrite orb_true_r]; reflexivity.
Qed.

(** With probability zero the trial never succeeds. *)
Lemma binomial1_zero (p : Q) (g : RandomState) :
  (p == 0)%Q -> binomial1 p g = (Ok 0, advance g).
Proof.
  intros Hp. unfold binomial1.
  assert (E0 : Qltb p 0 = false) by (apply Qltb_false; rewrite Hp; apply Qle_refl).
  assert (E1 : Qltb 1 p = false) by (apply Qltb_false; rewrite Hp; easy).
  assert (E2 : Qle_bool p (1 # 2) = true) by (apply Qle_bool_iff; rewrite Hp; easy).
  rewrite E0, E1, E2. cbn.
  assert (E3 : Qltb (1 - p) (random_sample g) = false).
  { apply Qltb_false. rewrite Hp.
    destruct (random_sample_range g) as [_ L].
    apply Qlt_le_weak. exact L. }
  now rewrite E3.
Qed.

(** With probability one it always does. *)
Lemma binomial1_one (p : Q) (g : RandomState) :
  (p == 1)%Q -> binomial1 p g = (Ok 1, advance g).
Proof.
  intros Hp. unfold binomial1.
  assert (E0 : Qltb p 0 = false) by (apply Qltb_false; rewrite Hp; easy).
  assert (E1 : Qltb 1 p = false) by (apply Qltb_false; rewrite Hp; apply Qle_refl).
  assert (E2 : Qle_bool p (1 # 2) = false).
  { destruct (Qle_bool p (1 # 2)) eqn:E; [|reflexivity].
    apply Qle_bool_iff in E. rewrite Hp in E. exfalso. revert E. easy. }
  rewrite E0, E1, E2. cbn.
  assert (E3 : Qltb p (random_sample g) = false).
  { apply Qltb_false. rewrite Hp.
    destruct (random_sample_range g) as [_ L]. now apply Qlt_le_weak. }
  now rewrite E3.
Qed.

(** ** Python indexing *)

Lemma norm_index_in (len k : Z) : 0 <= k < len -> norm_index len k = Ok k.
Proof.
  intros H. unfold norm_index.
  destruct (0 <=? k) eqn:E1; [|lia]. destruct (k <? len) eqn:E2; [|lia].
  reflexivity.
Qed.

Lemma norm_index_last (len : Z) : 0 < len -> norm_index len (-1) = Ok (len - 1).
Proof.
  intros H. unfold norm_index. cbn [Z.leb Z.compare andb].
  destruct (- len <=? -1) eqn:E1; [|lia].
  cbn. f_equal. lia.
Qed.

Lemma list_setitem_in {A} (l : list A) (k : Z) (v : A) :
  0 <= k < Z.of_nat (length l) ->
  list_setitem l k v = Ok (<[Z.to_nat k := v]> l).
Proof. intros H. unfold list_setitem. now rewrite norm_index_in. Qed.

Lemma list_setitem_last {A} (l : list A) (v : A) :
  0 < Z.of_nat (length l) ->
  list_setitem l (-1) v = Ok (<[Z.to_nat (Z.of_nat (length l) - 1) := v]> l).
Proof. intros H. unfold list_setitem. now rewrite norm_index_last. Qed.

(** ** Grid generation *)

Lemma obstacle_row_loop (n : Z) (rho : Q) (w : World) :
  (0 <= rho)%Q -> (rho <= 1)%Q ->
  exists row g,
    for_each (range n) (replicate (Z.to_nat n) " "%char)
      (fun col_idx row =>
         b <- self_np_random (binomial1 rho) ;;
         if negb (b =? 0)
         then lift (list_setitem row col_idx OBSTACLE_CHAR)
         else ret row) w
    = (Ok row, set_np_random g w) /\ interior_row n row.
Proof.
  intros H0 H1.
  pose (I := fun (_ : nat) (row : list ascii) (s : World) =>
               interior_row n row /\ exists g, s = set_np_random g w).
  edestruct (for_each_inv I (range n)) as (row & s & E & (Hrow & g & ->)).
  3: { exists row, g. split; [exact E|exact Hrow]. }
  - intros k x acc s Hx ((Hlen & Hall) & g & ->).
    apply range_lookup in Hx. destruct Hx as [-> Hk].
    destruct (binomial1_ok rho (np_random (set_np_random g w)) H0 H1)
      as (b & Eb & Hb).
    unfold bind at 1, self_np_random. rewrite Eb.
    destruct Hb as [-> | ->]; cbn [Z.eqb negb].
    + eexists _, _. split; [reflexivity|].
      split; [split; assumption|]. eexists. reflexivity.
    + unfold lift. rewrite list_setitem_in by lia.
      eexists _, _. split; [reflexivity|].
      split; [|eexists; reflexivity].
      split; [now rewrite length_insert|].
      apply Forall_insert; [exact Hall|now right].
  - split.
    + split; [apply length_replicate|].
      apply Forall_replicate. now left.
    + exists (np_random w). now destruct w.
Qed.

Lemma build_asci_art_ok (n : Z) (rho : Q) (w : World) :
  2 <= n -> n = 2 \/ ((0 <= rho)%Q /\ (rho <= 1)%Q) ->
  exists alpha rows g,
    build_asci_art n rho w = (Ok (concat rows), set_np_random g w) /\
    0 <= alpha < n /\ art_rows n alpha rows.
Proof.
  intros Hn Hr. unfold build_asci_art.
  destruct (randint_ok 0 n (np_random w) ltac:(lia)) as (alpha & Ea & Ha).
  unfold bind at 1, self_np_random at 1. rewrite Ea.
  unfold bind at 1, lift at 1.
  rewrite list_setitem_in by (rewrite length_replicate; lia).
  unfold bind at 1, lift at 1.
  rewrite list_setitem_last by (rewrite length_replicate; lia).
  rewrite length_replicate.
  set (first_row := <[Z.to_nat alpha := GOAL_CHAR]> _).
  set (last_row := <[Z.to_nat (Z.of_nat (Z.to_nat n) - 1) := PLAYER_CHAR]> _).
  pose (I := fun (k : nat) (art : list (list ascii)) (s : World) =>
               (exists mids, art = first_row :: mids /\ length mids = k /\
                             Forall (interior_row n) mids) /\
               exists g, s = set_np_random g w).
  edestruct (for_each_inv I (range (n - 2)))
    as (art & s & E & ((mids & -> & Hlen & Hmids) & g & ->)).
  3: { unfold bind at 1. rewrite E. unfold ret.
       exists alpha, ((first_row :: mids) ++ [last_row]), g.
       split; [reflexivity|]. split; [exact Ha|].
       exists mids. split; [|split].
       - subst first_row last_row. cbn [app]. do 3 f_equal. f_equal. lia.
       - rewrite Hlen. apply range_length.
       - exact Hmids. }
  - intros k x acc s Hx ((mids & -> & Hlen & Hmids) & g & ->).
    apply range_lookup in Hx.
    destruct Hr as [-> | [H0 H1]]; [lia|].
    destruct (obstacle_row_loop n rho (set_np_random g w) H0 H1)
      as (row & g' & Erow & Hrow).
    unfold bind at 1. rewrite Erow. unfold ret.
    eexists _, _. split; [reflexivity|].
    split; [|exists g'; reflexivity].
    exists (mids ++ [row]). split; [reflexivity|].
    split; [rewrite length_app; cbn; lia|].
    apply Forall_app. split; [exact Hmids|]. now constructor.
  - split.
    + exists []. repeat split. constructor.
    + exists (advance (np_random w)). reflexivity.
Qed.

(** Cell [(i, j)] of a list of rows of equal length, after flattening. *)
Lemma lookup_concat_rows {A} (c : nat) (rows : list (list A)) (i j : nat) :
  Forall (fun r => length r = c) rows -> (j < c)%nat ->
  concat rows !! (i * c + j)%nat = rows !! i ≫= (fun r => r !! j).
Proof.
  intros Hrows Hj. revert i. induction Hrows as [|r rows Hr _ IH]; intros i.
  - reflexivity.
  - cbn [concat]. destruct i as [|i].
    + cbn. apply lookup_app_l. lia.
    + rewrite lookup_app_r by (cbn; lia).
      replace (S i * c + j - length r)%nat with (i * c + j)%nat by (cbn; lia).
      apply IH.
Qed.

Lemma length_concat_rows {A} (c : nat) (rows : list (list A)) :
  Forall (fun r => length r = c) rows ->
  length (concat rows) = (length rows * c)%nat.
Proof.
  induction 1 as [|r rows Hr _ IH]; [reflexivity|].
  cbn [concat length]. rewrite length_app, IH. lia.
Qed.

Lemma getitem2_in {A} (a : ndarray2 A) (i j : Z) :
  0 <= i < nd_rows a -> 0 <= j < nd_cols a ->
  getitem2 a i j =
    match nd_data a !! Z.to_nat (i * nd_cols a + j) with
    | Some x => Ok x
    | None => Raise IndexError
    end.
Proof. intros Hi Hj. unfold getitem2. now rewrite !norm_index_in. Qed.

Lemma art_rows_lengths (n alpha : Z) (rows : list (list ascii)) :
  2 <= n -> art_rows n alpha rows ->
  length rows = Z.to_nat n /\
  Forall (fun r => length r = Z.to_nat n) rows.
Proof.
  intros Hn (mids & -> & Hlen & Hmids). split.
  - cbn [length]. rewrite length_app, Hlen. cbn. lia.
  - constructor; [now rewrite length_insert, length_replicate|].
    apply Forall_app. split.
    + eapply Forall_impl; [exact Hmids|]. now intros r [Hr _].
    + constructor; [|constructor].
      now rewrite length_insert, length_replicate.
Qed.

Lemma insert_replicate_lookup {A} (x y : A) (n k j : nat) :
  (k < n)%nat -> (j < n)%nat ->
  <[k := y]> (replicate n x) !! j = Some (if decide (j = k) then y else x).
Proof.
  intros Hk Hj. destruct (decide (j = k)) as [->|Hne].
  - apply list_lookup_insert_eq. now rewrite length_replicate.
  - rewrite list_lookup_insert_ne by congruence.
    now apply lookup_replicate_2.
Qed.

Lemma art_rows_grid (n alpha : Z) (rows : list (list ascii)) :
  2 <= n -> 0 <= alpha < n -> art_rows n alpha rows ->
  exists a, reshape (concat rows) n n = Ok a /\ generated_grid n alpha a.
Proof.
  intros Hn Ha Hrows.
  destruct (art_rows_lengths n alpha rows Hn Hrows) as [Hlen Hall].
  pose proof (length_concat_rows _ _ Hall) as Hflat.
  assert (Hsize : Z.of_nat (length (concat rows)) = n * n).
  { rewrite Hflat, Hlen. nia. }
  exists (mk_ndarray2 (concat rows) n n). split.
  { unfold reshape.
    destruct (0 <=? n) eqn:E1; [|lia]. rewrite Hsize, Z.eqb_refl.
    reflexivity. }
  repeat split; try assumption; try lia.
  intros i j Hi Hj.
  rewrite getitem2_in by (cbn; lia). cbn [nd_data nd_cols].
  replace (Z.to_nat (i * n + j))
    with (Z.to_nat i * Z.to_nat n + Z.to_nat j)%nat by nia.
  rewrite (lookup_concat_rows _ _ _ _ Hall) by lia.
  destruct Hrows as (mids & -> & Hmlen & Hmids).
  unfold cell_kind.
  destruct (i =? 0) eqn:Ei0.
  - apply Z.eqb_eq in Ei0. subst i. change (Z.to_nat 0) with O. simpl.
    rewrite insert_replicate_lookup by lia.
    eexists. split; [reflexivity|].
    destruct (decide _) as [E|E], (j =? alpha) eqn:Ej; try reflexivity; lia.
  - apply Z.eqb_neq in Ei0.
    destruct (Z.to_nat i) as [|i'] eqn:Ei; [lia|]. rewrite lookup_cons_ne_0 by lia. cbn [pred].
    destruct (i =? n - 1) eqn:Ei1.
    + apply Z.eqb_eq in Ei1.
      rewrite lookup_app_r by lia.
      replace (i' - length mids)%nat with O by lia. simpl.
      rewrite insert_replicate_lookup by lia.
      eexists. split; [reflexivity|].
      destruct (decide _) as [E|E], (j =? n - 1) eqn:Ej; try reflexivity; lia.
    + apply Z.eqb_neq in Ei1.
      rewrite lookup_app_l by lia.
      destruct (mids !! i') as [r|] eqn:Er.
      2: { apply lookup_ge_None in Er. lia. }
      simpl. rewrite Forall_forall in Hmids.
      destruct (Hmids r) as [Hrlen Hrall].
      { apply list_elem_of_lookup. eauto. }
      destruct (r !! Z.to_nat j) as [c|] eqn:Ec.
      2: { apply lookup_ge_None in Ec. lia. }
      exists c. split; [reflexivity|].
      rewrite Forall_forall in Hrall. apply Hrall.
      apply list_elem_of_lookup. eauto.
Qed.

(** ** Arrays of a known shape *)

Lemma flat_index_inj (c i j i' j' : Z) :
  0 <= j < c -> 0 <= j' < c -> i * c + j = i' * c + j' -> i = i' /\ j = j'.
Proof.
  intros Hj Hj' E.
  assert (i = i') by nia. subst i'. lia.
Qed.

Lemma flat_index_bound (n i j : Z) :
  0 <= i < n -> 0 <= j < n -> 0 <= i * n + j < n * n.
Proof. intros Hi Hj. nia. Qed.

Lemma getitem2_shaped {A} (n : Z) (a : ndarray2 A) (i j : Z) :
  shaped n a -> 0 <= i < n -> 0 <= j < n ->
  exists x, nd_data a !! Z.to_nat (i * n + j) = Some x /\ getitem2 a i j = Ok x.
Proof.
  intros (Hn0 & Hr & Hc & Hl) Hi Hj.
  rewrite getitem2_in by lia. rewrite Hc.
  pose proof (flat_index_bound n i j Hi Hj) as B.
  destruct (nd_data a !! Z.to_nat (i * n + j)) as [x|] eqn:E.
  - now exists x.
  - apply lookup_ge_None in E. lia.
Qed.

Lemma setitem2_in {A} (a : ndarray2 A) (i j : Z) (v : A) :
  0 <= i < nd_rows a -> 0 <= j < nd_cols a ->
  setitem2 a i j v =
    Ok (mk_ndarray2 (<[Z.to_nat (i * nd_cols a + j) := v]> (nd_data a))
                    (nd_rows a) (nd_cols a)).
Proof. intros Hi Hj. unfold setitem2. now rewrite !norm_index_in. Qed.

Lemma setitem2_shaped {A} (n : Z) (a : ndarray2 A) (i j : Z) (v : A) :
  shaped n a -> 0 <= i < n -> 0 <= j < n ->
  exists a', setitem2 a i j v = Ok a' /\ shaped n a' /\
    getitem2 a' i j = Ok v /\
    forall i' j', 0 <= i' < n -> 0 <= j' < n -> (i', j') <> (i, j) ->
      getitem2 a' i' j' = getitem2 a i' j'.
Proof.
  intros (Hn0 & Hr & Hc & Hl) Hi Hj.
  rewrite setitem2_in by lia. eexists. split; [reflexivity|].
  pose proof (flat_index_bound n i j Hi Hj) as B.
  split; [|split].
  - repeat split; cbn; try assumption; try lia. now rewrite length_insert.
  - rewrite getitem2_in by (cbn; lia). cbn. rewrite Hc.
    rewrite list_lookup_insert_eq by lia. reflexivity.
  - intros i' j' Hi' Hj' Hne.
    rewrite !getitem2_in by (cbn; lia). cbn. rewrite Hc.
    rewrite list_lookup_insert_ne; [reflexivity|].
    intros E. apply Hne.
    pose proof (flat_index_bound n i' j' Hi' Hj') as B'.
    assert (E' : i * n + j = i' * n + j') by lia.
    destruct (flat_index_inj n i j i' j' Hj Hj' E') as [-> ->]. reflexivity.
Qed.

(** ** [argwhere] lists exactly the matching cells *)

Lemma elem_of_argwhere_from {A} `{EqDecision A} (cols k : Z) (l : list A)
    (x : A) (p : Z * Z) :
  p ∈ argwhere_from cols k l x <->
  exists m : nat, l !! m = Some x /\
    p = ((k + Z.of_nat m) / cols, (k + Z.of_nat m) mod cols).
Proof.
  revert k. induction l as [|y l IH]; intros k; cbn [argwhere_from].
  - split; [intros H0; inversion H0|intros (m & H0 & _); discriminate].
  - rewrite elem_of_app, IH. split.
    + intros [Hp | (m & Hm & ->)].
      * destruct (decide (y = x)) as [->|]; [|inversion Hp].
        apply list_elem_of_singleton in Hp. subst p.
        exists O. split; [reflexivity|]. now rewrite Z.add_0_r.
      * exists (S m). split; [exact Hm|]. do 2 f_equal; lia.
    + intros ([|m] & Hm & ->).
      * left. cbn in Hm. injection Hm as ->.
        rewrite decide_True by reflexivity.
        rewrite Z.add_0_r. apply list_elem_of_singleton. reflexivity.
      * right. exists m. split; [exact Hm|]. do 2 f_equal; lia.
Qed.

Lemma elem_of_argwhere {A} `{EqDecision A} (n : Z) (a : ndarray2 A) (x : A)
    (i j : Z) :
  shaped n a ->
  (i, j) ∈ argwhere a x <->
  0 <= i < n /\ 0 <= j < n /\ getitem2 a i j = Ok x.
Proof.
  intros Hs. pose proof Hs as (Hn0 & Hr & Hc & Hl).
  unfold argwhere. rewrite elem_of_argwhere_from, Hc. split.
  - intros (m & Hm & E). rewrite Z.add_0_l in E.
    assert (Hlt : Z.of_nat m < n * n).
    { apply lookup_lt_Some in Hm. lia. }
    assert (Hn : 0 < n) by nia.
    injection E as -> ->.
    pose proof (Z.mod_pos_bound (Z.of_nat m) n Hn) as Bm.
    assert (Bd : 0 <= Z.of_nat m / n < n).
    { split; [apply Z.div_pos; lia|].
      apply Z.div_lt_upper_bound; lia. }
    repeat split; try lia.
    rewrite getitem2_in by lia. rewrite Hc.
    replace (Z.of_nat m / n * n + Z.of_nat m mod n) with (Z.of_nat m)
      by (rewrite (Z.div_mod (Z.of_nat m) n) at 1; lia).
    rewrite Nat2Z.id, Hm. reflexivity.
  - intros (Hi & Hj & E).
    destruct (getitem2_shaped n a i j Hs Hi Hj) as (y & Hy & E').
    assert (y = x) by congruence. subst y.
    exists (Z.to_nat (i * n + j)). split; [exact Hy|].
    pose proof (flat_index_bound n i j Hi Hj) as B.
    rewrite Z.add_0_l, Z2Nat.id by lia.
    f_equal.
    + rewrite Z.div_add_l by lia. rewrite Z.div_small by lia. lia.
    + rewrite Z.add_comm, Z.mod_add by lia. symmetry. now apply Z.mod_small.
Qed.

Lemma array_eq_all_spec (a b : Z * Z) : array_eq_all a b = true <-> a = b.
Proof.
  destruct a as [a1 a2], b as [b1 b2]. unfold array_eq_all. cbn.
  rewrite andb_true_iff, !Z.eqb_eq. split; [intros [-> ->]|intros [= -> ->]];
    auto.
Qed.

Lemma list_contains_spec (l : list (Z * Z)) (a : Z * Z) :
  list_contains l a = true <-> a ∈ l.
Proof.
  unfold list_contains. rewrite existsb_exists. split.
  - intros (b & Hin & E). apply array_eq_all_spec in E. subst b.
    now apply list_elem_of_In.
  - intros Hin. exists a. split; [now apply list_elem_of_In|].
    now apply array_eq_all_spec.
Qed.

(** ** The cached image of the grid *)

Lemma art_color_legend (ch : ascii) :
  legend ch ->
  (if decide (ch = PLAYER_CHAR)
   then dict_getitem FG_COLORS EMPTY_CHAR
   else dict_getitem FG_COLORS ch) = Ok (cell_color ch).
Proof. intros [-> | [-> | [-> | ->]]]; reflexivity. Qed.

Lemma zeros2_shaped {A} (z : A) (n : Z) :
  0 <= n -> exists a, zeros2 z n n = Ok a /\ shaped n a.
Proof.
  intros Hn. unfold zeros2. destruct (0 <=? n) eqn:E; [|lia].
  eexists. split; [reflexivity|].
  repeat split; cbn; try lia. rewrite length_replicate. nia.
Qed.

Lemma get_art_img_ok (n : Z) (w : World) :
  gridsize w = n -> shaped n (art w) ->
  (forall i j ch, 0 <= i < n -> 0 <= j < n ->
     getitem2 (art w) i j = Ok ch -> legend ch) ->
  exists img, get_art_img w = (Ok img, w) /\ static_image n (art w) img.
Proof.
  intros Hsize Hart Hleg.
  pose proof Hart as (Hn & _).
  unfold get_art_img. unfold bind at 1, gets at 1. rewrite Hsize.
  destruct (zeros2_shaped (0, 0, 0) n Hn) as (img0 & E0 & Himg0).
  unfold bind at 1, lift at 1. rewrite E0.
  pose (I := fun (k : nat) (img : ndarray2 color) (s : World) =>
    s = w /\ shaped n img /\
    forall i j, 0 <= i < Z.of_nat k -> 0 <= j < n -> pixel_ok (art w) img i j).
  edestruct (for_each_inv I (range n)) as (img & s & E & (-> & Hs & Hpix)).
  3: { exists img. split; [exact E|]. split; [exact Hs|].
       intros i j Hi Hj. apply Hpix; [|exact Hj].
       rewrite range_length. lia. }
  2: { split; [reflexivity|]. split; [exact Himg0|]. intros; lia. }
  intros k x img s Hx (-> & Hs & Hrows).
  apply range_lookup in Hx. destruct Hx as [-> Hk].
  pose (J := fun (kj : nat) (img : ndarray2 color) (s : World) =>
    s = w /\ shaped n img /\
    (forall i j, 0 <= i < Z.of_nat k -> 0 <= j < n ->
       pixel_ok (art w) img i j) /\
    forall j, 0 <= j < Z.of_nat kj -> pixel_ok (art w) img (Z.of_nat k) j).
  edestruct (for_each_inv J (range n))
    as (img' & s & E & (-> & Hs' & Hrows' & Hrow)).
  3: { exists img', w. split; [exact E|].
       split; [reflexivity|]. split; [exact Hs'|].
       intros i j Hi Hj.
       destruct (decide (i = Z.of_nat k)) as [->|Hne].
       - apply Hrow. rewrite range_length. lia.
       - apply Hrows'; lia. }
  2: { split; [reflexivity|]. split; [exact Hs|]. split; [exact Hrows|].
       intros; lia. }
  intros kj y img1 s Hy (-> & Hs1 & Hrows1 & Hrow1).
  apply range_lookup in Hy. destruct Hy as [-> Hkj].
  unfold bind at 1, gets at 1.
  destruct (getitem2_shaped n (art w) (Z.of_nat k) (Z.of_nat kj) Hart
              ltac:(lia) ltac:(lia)) as (ch & _ & Ech).
  unfold bind at 1, lift at 1. rewrite Ech.
  unfold bind at 1, lift at 1.
  rewrite art_color_legend by (eapply Hleg; [| |exact Ech]; lia).
  destruct (setitem2_shaped (A:=(Z * Z * Z)%type) n img1 (Z.of_nat k) (Z.of_nat kj)
              (cell_color ch) Hs1 ltac:(lia) ltac:(lia))
    as (img2 & E2 & Hs2 & Hset & Hother).
  cbn beta iota. unfold lift. rewrite E2.
  exists img2, w. split; [reflexivity|].
  split; [reflexivity|]. split; [exact Hs2|]. split.
  - intros i j Hi Hj. destruct (Hrows1 i j Hi Hj) as (c & Hc1 & Hc2).
    exists c. split; [exact Hc1|].
    rewrite Hother; [exact Hc2|lia|lia|]. intros [= -> _]. lia.
  - intros j Hj. destruct (decide (j = Z.of_nat kj)) as [->|Hne].
    + exists ch. split; [exact Ech|exact Hset].
    + destruct (Hrow1 j ltac:(lia)) as (c & Hc1 & Hc2).
      exists c. split; [exact Hc1|].
      rewrite Hother; [exact Hc2|lia|lia|]. intros [= ->]. lia.
Qed.

(** ** Generated grids *)

Lemma generated_shaped (n alpha : Z) (a : ndarray2 ascii) :
  generated_grid n alpha a -> shaped n a.
Proof. intros (Hr & Hc & Hl & Ha & _). repeat split; try assumption; lia. Qed.

Lemma generated_cell (n alpha : Z) (a : ndarray2 ascii) (i j : Z) (ch : ascii) :
  generated_grid n alpha a -> 0 <= i < n -> 0 <= j < n ->
  getitem2 a i j = Ok ch -> cell_kind n alpha i j ch.
Proof.
  intros (_ & _ & _ & _ & Hcells) Hi Hj E.
  destruct (Hcells i j Hi Hj) as (c & Ec & Hk). congruence.
Qed.

Lemma generated_legend (n alpha : Z) (a : ndarray2 ascii) (i j : Z) (ch : ascii) :
  generated_grid n alpha a -> 0 <= i < n -> 0 <= j < n ->
  getitem2 a i j = Ok ch -> legend ch.
Proof.
  intros Hg Hi Hj E. pose proof (generated_cell _ _ _ _ _ _ Hg Hi Hj E) as Hk.
  unfold cell_kind, legend in *.
  destruct (i =? 0); [destruct (j =? alpha); subst; auto|].
  destruct (i =? n - 1); [destruct (j =? n - 1); subst; auto|].
  destruct Hk; auto.
Qed.

(** The goal is the only [G], at column [alpha] of row 0. *)
Lemma generated_goal_iff (n alpha : Z) (a : ndarray2 ascii) (i j : Z) :
  2 <= n -> generated_grid n alpha a -> 0 <= i < n -> 0 <= j < n ->
  getitem2 a i j = Ok GOAL_CHAR <-> i = 0 /\ j = alpha.
Proof.
  intros Hn Hg Hi Hj.
  pose proof Hg as (_ & _ & _ & _ & Hcells).
  destruct (Hcells i j Hi Hj) as (c & Ec & Hk). rewrite Ec.
  unfold cell_kind in Hk.
  destruct (i =? 0) eqn:E0.
  - apply Z.eqb_eq in E0. destruct (j =? alpha) eqn:Ej.
    + apply Z.eqb_eq in Ej. subst. tauto.
    + apply Z.eqb_neq in Ej. subst c. split; [discriminate|lia].
  - apply Z.eqb_neq in E0.
    split; [|lia]. intros [= ->].
    destruct (i =? n - 1); [destruct (j =? n - 1); discriminate|].
    destruct Hk; discriminate.
Qed.

(** No obstacle in row 0 nor in the last row. *)
Lemma generated_border_free (n alpha : Z) (a : ndarray2 ascii) (i j : Z) :
  generated_grid n alpha a -> 0 <= i < n -> 0 <= j < n ->
  getitem2 a i j = Ok OBSTACLE_CHAR -> 0 < i < n - 1.
Proof.
  intros Hg Hi Hj E. pose proof (generated_cell _ _ _ _ _ _ Hg Hi Hj E) as Hk.
  unfold cell_kind in Hk.
  destruct (i =? 0) eqn:E0; [destruct (j =? alpha); discriminate|].
  destruct (i =? n - 1) eqn:E1; [destruct (j =? n - 1); discriminate|].
  lia.
Qed.

Lemma generated_start (n alpha : Z) (a : ndarray2 ascii) :
  2 <= n -> generated_grid n alpha a ->
  getitem2 a (n - 1) (n - 1) = Ok PLAYER_CHAR.
Proof.
  intros Hn (_ & _ & _ & _ & Hcells).
  destruct (Hcells (n - 1) (n - 1)) as (c & Ec & Hk); try lia.
  unfold cell_kind in Hk.
  destruct (n - 1 =? 0) eqn:E0; [lia|]. rewrite Z.eqb_refl in Hk.
  now subst c.
Qed.

Lemma generated_first_goal (n alpha : Z) (a : ndarray2 ascii) :
  2 <= n -> generated_grid n alpha a ->
  first_item (argwhere a GOAL_CHAR) = Ok (0, alpha).
Proof.
  intros Hn Hg. pose proof (generated_shaped _ _ _ Hg) as Hs.
  pose proof Hg as (_ & _ & _ & Ha & _).
  assert (Hin : (0, alpha) ∈ argwhere a GOAL_CHAR).
  { apply (elem_of_argwhere n); [exact Hs|].
    repeat split; try lia. apply (generated_goal_iff n alpha); auto; lia. }
  destruct (argwhere a GOAL_CHAR) as [|[i j] l] eqn:E; [inversion Hin|].
  cbn. f_equal.
  assert (Hp : (i, j) ∈ argwhere a GOAL_CHAR) by (rewrite E; left).
  apply (elem_of_argwhere n) in Hp; [|exact Hs].
  destruct Hp as (Hi & Hj & Ec).
  apply (generated_goal_iff n alpha) in Ec; auto. now destruct Ec as [-> ->].
Qed.

(** ** Configured worlds *)

Lemma in_grid_spec (n : Z) (p : Z * Z) :
  in_grid n p = true <-> 0 <= p.1 < n /\ 0 <= p.2 < n.
Proof.
  unfold in_grid. rewrite negb_true_iff, !orb_false_iff.
  rewrite !Z.ltb_ge, !Z.geb_leb, !Z.leb_gt. lia.
Qed.

Lemma make_game_ok (n : Z) (r s : Q) (io : bool) (w : World) :
  2 <= n -> n = 2 \/ ((0 <= r)%Q /\ (r <= 1)%Q) ->
  exists w' alpha,
    make_game n r s io w = (Ok tt, w') /\
    gridsize w' = n /\ rho w' = r /\ stochasticity w' = s /\
    img_observation w' = io /\
    start_state w' = (n - 1, n - 1) /\ state w' = (n - 1, n - 1) /\
    goal_state w' = (0, alpha) /\
    generated_grid n alpha (art w') /\
    static_image n (art w') (art_img w') /\
    module_random w' = module_random w /\
    configured w'.
Proof.
  intros Hn Hr. unfold make_game.
  do 3 (unfold bind at 1, modify at 1).
  set (w1 := set_stochasticity s _).
  destruct (build_asci_art_ok n r w1 Hn Hr)
    as (alpha & rows & g & Eb & Ha & Hrows).
  unfold bind at 1. rewrite Eb.
  destruct (art_rows_grid n alpha rows Hn Ha Hrows) as (a & Er & Hg).
  unfold bind at 1, lift at 1. rewrite Er.
  do 3 (unfold bind at 1, modify at 1).
  unfold bind at 1, gets at 1. cbn [art set_art set_img_observation
    set_start_state].
  unfold bind at 1, lift at 1.
  rewrite (generated_first_goal n alpha a Hn Hg).
  unfold bind at 1, modify at 1. unfold bind at 1, gets at 1.
  unfold bind at 1, modify at 1. unfold bind at 1, gets at 1.
  unfold bind at 1, modify at 1.
  set (w2 := set_obstacle_states _ _).
  pose proof (generated_shaped _ _ _ Hg) as Hs.
  destruct (get_art_img_ok n w2) as (img & Ei & Himg).
  { reflexivity. }
  { exact Hs. }
  { intros i j ch Hi Hj. now apply (generated_legend n alpha). }
  unfold bind at 1. rewrite Ei. unfold modify.
  eexists _, alpha. split; [reflexivity|].
  cbn. repeat split; try assumption; try reflexivity; try lia;
    try apply Himg; try apply Hs.
  - apply Hg.
  - apply (generated_first_goal n alpha a Hn Hg).
  - apply in_grid_spec. cbn. lia.
  - apply in_grid_spec. cbn. lia.
Qed.

(** ** Configurations that are refused

    [make_game] checks nothing itself; a configuration fails only where a
    library call that it reaches refuses its argument. *)

Lemma range_cons (n : Z) : 0 < n -> range n = 0 :: seqZ 1 (n - 1).
Proof. intros H. unfold range. now rewrite seqZ_cons by lia. Qed.

Lemma build_asci_art_size_le_0 (n : Z) (r : Q) (w : World) :
  n <= 0 -> build_asci_art n r w = (Raise ValueError, w).
Proof.
  intros Hn. unfold build_asci_art, bind at 1, self_np_random.
  rewrite randint_raise by lia. now destruct w.
Qed.

Lemma build_asci_art_size_1 (r : Q) (w : World) :
  build_asci_art 1 r w
  = (Ok [GOAL_CHAR; PLAYER_CHAR], set_np_random (advance (np_random w)) w).
Proof.
  unfold build_asci_art, bind at 1, self_np_random, randint.
  cbn [Z.leb Z.compare]. rewrite Z.sub_0_r, Z.mod_1_r. reflexivity.
Qed.

Lemma build_asci_art_bad_rho (n : Z) (r : Q) (w : World) :
  3 <= n -> (r < 0)%Q \/ (1 < r)%Q ->
  build_asci_art n r w
  = (Raise ValueError, set_np_random (advance (np_random w)) w).
Proof.
  intros Hn Hr. unfold build_asci_art.
  destruct (randint_ok 0 n (np_random w) ltac:(lia)) as (alpha & Ea & Ha).
  unfold bind at 1, self_np_random at 1. rewrite Ea.
  unfold bind at 1, lift at 1.
  rewrite list_setitem_in by (rewrite length_replicate; lia).
  unfold bind at 1, lift at 1.
  rewrite list_setitem_last by (rewrite length_replicate; lia).
  rewrite (range_cons (n - 2)) by lia. rewrite (range_cons n) by lia.
  apply bind_raise. cbn [for_each]. do 2 apply bind_raise.
  cbn [for_each]. do 2 apply bind_raise.
  unfold self_np_random. rewrite (binomial1_raise r _ Hr). reflexivity.
Qed.

Lemma make_game_size_lt_2 (n : Z) (r s : Q) (io : bool) (w : World) :
  n < 2 -> run (make_game n r s io) w = Raise ValueError.
Proof.
  intros Hn. unfold run, make_game.
  do 3 (unfold bind at 1, modify at 1). unfold bind at 1.
  destruct (Z.eq_dec n 1) as [->|Hne].
  - rewrite build_asci_art_size_1. reflexivity.
  - rewrite build_asci_art_size_le_0 by lia. reflexivity.
Qed.

Lemma make_game_bad_rho (n : Z) (r s : Q) (io : bool) (w : World) :
  3 <= n -> (r < 0)%Q \/ (1 < r)%Q ->
  run (make_game n r s io) w = Raise ValueError.
Proof.
  intros Hn Hr. unfold run, make_game.
  do 3 (unfold bind at 1, modify at 1). unfold bind at 1.
  now rewrite build_asci_art_bad_rho.
Qed.

(** ** Observations *)

Lemma bind_gets {S A B} (f : S -> A) (k : A -> St S B) (s : S) :
  bind (gets f) k s = k (f s) s.
Proof. reflexivity. Qed.

Lemma bind_modify {S B} (f : S -> S) (k : unit -> St S B) (s : S) :
  bind (modify f) k s = k tt (f s).
Proof. reflexivity. Qed.

Lemma bind_ret {S A B} (a : A) (k : A -> St S B) (s : S) :
  bind (ret a) k s = k a s.
Proof. reflexivity. Qed.

Lemma bind_lift_ok {S A B} (a : A) (k : A -> St S B) (s : S) :
  bind (lift (Ok a)) k s = k a s.
Proof. reflexivity. Qed.

Lemma bind_lift_raise {S A B} (e : Exception) (k : A -> St S B) (s : S) :
  bind (lift (Raise e)) k s = (Raise e, s).
Proof. reflexivity. Qed.

Lemma player_color : dict_getitem FG_COLORS PLAYER_CHAR = Ok PLAYER_COLOR.
Proof. reflexivity. Qed.

Lemma state_to_oh_ok (w : World) :
  in_grid (gridsize w) (state w) = true ->
  state_to_oh w = (Ok (one_hot (gridsize w) (state w)), w).
Proof.
  intros Hin. apply in_grid_spec in Hin.
  unfold state_to_oh. rewrite bind_gets. cbn beta. rewrite bind_gets.
  destruct (state w) as [i j]. cbn [fst snd] in *. cbn beta iota.
  unfold lift. rewrite list_setitem_in; [reflexivity|].
  rewrite length_replicate.
  pose proof (flat_index_bound (gridsize w) i j ltac:(lia) ltac:(lia)). lia.
Qed.

Lemma one_hot_length (n : Z) (p : Z * Z) :
  Z.of_nat (length (one_hot n p)) = n * n.
Proof. unfold one_hot. rewrite length_insert, length_replicate. nia. Qed.

Lemma one_hot_lookup (n : Z) (p : Z * Z) (k : Z) :
  0 <= p.1 < n -> 0 <= p.2 < n -> 0 <= k < n * n ->
  one_hot n p !! Z.to_nat k = Some (if k =? p.1 * n + p.2 then 1 else 0).
Proof.
  intros H1 H2 Hk. unfold one_hot.
  pose proof (flat_index_bound n p.1 p.2 H1 H2) as B.
  destruct (k =? p.1 * n + p.2) eqn:E.
  - apply Z.eqb_eq in E. subst k.
    apply list_lookup_insert_eq. rewrite length_replicate. lia.
  - apply Z.eqb_neq in E. rewrite list_lookup_insert_ne by lia.
    apply lookup_replicate_2. lia.
Qed.

Lemma state_to_img_ok (w : World) :
  shaped (gridsize w) (art_img w) ->
  in_grid (gridsize w) (state w) = true ->
  state_to_img w = (Ok (player_image (art_img w) (state w)), w).
Proof.
  intros (Hn & Hr & Hc & Hl) Hin. apply in_grid_spec in Hin.
  unfold state_to_img. rewrite bind_gets. cbn beta. rewrite bind_gets.
  destruct (state w) as [i j]. cbn [fst snd] in *. cbn beta iota.
  rewrite player_color, bind_lift_ok.
  unfold lift. rewrite setitem2_in by lia. reflexivity.
Qed.

Lemma player_image_spec (n : Z) (img : ndarray2 color) (p : Z * Z) :
  shaped n img -> 0 <= p.1 < n -> 0 <= p.2 < n ->
  shaped n (player_image img p) /\
  getitem2 (player_image img p) p.1 p.2 = Ok PLAYER_COLOR /\
  forall i j, 0 <= i < n -> 0 <= j < n -> (i, j) <> p ->
    getitem2 (player_image img p) i j = getitem2 img i j.
Proof.
  intros Hs H1 H2.
  destruct (setitem2_shaped n img p.1 p.2 PLAYER_COLOR Hs H1 H2)
    as (img' & E & Hs' & Hset & Hother).
  pose proof Hs as (Hn & Hr & Hc & Hl).
  rewrite setitem2_in in E by lia. injection E as <-.
  split; [exact Hs'|]. split; [exact Hset|].
  intros i j Hi Hj Hne. apply Hother; auto.
  destruct p. exact Hne.
Qed.

Lemma observe_ok (w : World) :
  configured w -> observe w = (Ok (observation_of w), w).
Proof.
  intros (_ & Himg & _ & _ & _ & Hin).
  unfold observe, observation_of. rewrite bind_gets.
  destruct (img_observation w).
  - erewrite bind_ok by (apply state_to_img_ok; assumption). reflexivity.
  - erewrite bind_ok by (apply state_to_oh_ok; assumption). reflexivity.
Qed.

Lemma reset_ok (w : World) :
  configured w ->
  reset w = (Ok (observation_of (set_state (start_state w) w)),
             set_state (start_state w) w) /\
  configured (set_state (start_state w) w).
Proof.
  intros Hc.
  assert (Hc' : configured (set_state (start_state w) w)).
  { destruct Hc as (H1 & H2 & H3 & H4 & H5 & H6).
    repeat split; try assumption; apply H1 || apply H2. }
  split; [|exact Hc'].
  unfold reset. rewrite bind_gets. cbn beta. rewrite bind_modify.
  now apply observe_ok.
Qed.

(** ** The transition *)

Lemma moved_in_grid (n : Z) (st delta : Z * Z) :
  in_grid n st = true -> in_grid n (moved n st delta) = true.
Proof.
  intros H. unfold moved. cbn zeta.
  destruct (in_grid n (st.1 + delta.1, st.2 + delta.2)) eqn:E; assumption.
Qed.

Lemma after_step_configured (delta : Z * Z) (g : RandomState) (w : World) :
  configured w -> configured (after_step delta g w).
Proof.
  intros (H1 & H2 & H3 & H4 & H5 & H6).
  repeat split; try assumption; try apply H1; try apply H2.
  now apply moved_in_grid.
Qed.

Lemma set_state_same (w : World) : set_state (state w) w = w.
Proof. now destruct w. Qed.

(** [step] raises what the two draws raise, with the generator as they
    left it. *)
Lemma step_draw_raise (action : Z) (w : World) (e : Exception)
    (g : RandomState) :
  effective_action (stochasticity w) action (module_random w) = (Raise e, g) ->
  step action w = (Raise e, set_module_random g w).
Proof.
  unfold effective_action, step. intros He.
  rewrite bind_gets. cbn beta.
  unfold bind at 1 in He.
  destruct (binomial1 (stochasticity w) (module_random w)) as [[b|e'] g1] eqn:Eb.
  - erewrite bind_ok by (unfold np_random_module; rewrite Eb; reflexivity).
    destruct (negb (b =? 0)); [|discriminate].
    apply bind_raise. unfold np_random_module.
    cbn [module_random set_module_random]. rewrite He. reflexivity.
  - injection He as -> ->.
    apply bind_raise. unfold np_random_module. now rewrite Eb.
Qed.

(** An action outside the table raises [KeyError] after the draws. *)
Lemma step_key_error (action : Z) (w : World) (a : Z) (g : RandomState) :
  effective_action (stochasticity w) action (module_random w) = (Ok a, g) ->
  ACTIONS !! a = None ->
  step action w = (Raise KeyError, set_module_random g w).
Proof.
  unfold effective_action, step. intros He Ha.
  rewrite bind_gets. cbn beta.
  unfold bind at 1 in He.
  destruct (binomial1 (stochasticity w) (module_random w)) as [[b|e'] g1] eqn:Eb;
    [|discriminate].
  erewrite bind_ok by (unfold np_random_module; rewrite Eb; reflexivity).
  destruct (negb (b =? 0)).
  - erewrite bind_ok
      by (unfold np_random_module; cbn [module_random set_module_random];
          rewrite He; reflexivity).
    rewrite bind_gets. cbn beta. unfold dict_getitem. rewrite Ha.
    reflexivity.
  - injection He as -> ->. rewrite bind_ret.
    rewrite bind_gets. cbn beta. unfold dict_getitem. rewrite Ha.
    reflexivity.
Qed.

(** The transition for an action of the table. *)
Lemma step_transition (action : Z) (w : World) (a : Z) (g : RandomState)
    (delta : Z * Z) :
  configured w ->
  effective_action (stochasticity w) action (module_random w) = (Ok a, g) ->
  ACTIONS !! a = Some delta ->
  let w' := after_step delta g w in
  step action w
  = (Ok (observation_of w', (outcome w').1.1, (outcome w').1.2, (outcome w').2),
     w').
Proof.
  intros Hc He Ha w'.
  pose proof (after_step_configured delta g w Hc) as Hc'. fold w' in Hc'.
  assert (Hrest :
    (st <- gets state ;;
     delta <- lift (dict_getitem ACTIONS a) ;;
     let new_state := (st.1 + delta.1, st.2 + delta.2) in
     n <- gets gridsize ;;
     (if in_grid n new_state then modify (set_state new_state) else ret tt) ;;;
     st <- gets state ;;
     goal <- gets goal_state ;;
     obstacles <- gets obstacle_states ;;
     let '(reward, done, info) :=
       if array_eq_all st goal then (1000, true, mk_info [0])
       else if list_contains obstacles st then (-1, false, mk_info [1])
       else (-1, false, mk_info [0]) in
     obs <- observe ;;
     ret (obs, reward, done, info)) (set_module_random g w)
    = (Ok (observation_of w', (outcome w').1.1, (outcome w').1.2,
           (outcome w').2), w')).
  { rewrite bind_gets. cbn beta. unfold dict_getitem. rewrite Ha.
    rewrite bind_lift_ok. cbn beta zeta. rewrite bind_gets. cbn beta.
    assert (Hw : (if in_grid (gridsize (set_module_random g w))
                       ((state (set_module_random g w)).1 + delta.1,
                        (state (set_module_random g w)).2 + delta.2)
                  then modify
                         (set_state
                            ((state (set_module_random g w)).1 + delta.1,
                             (state (set_module_random g w)).2 + delta.2))
                  else ret tt) (set_module_random g w) = (Ok tt, w')).
    { unfold w', after_step, moved. cbn [gridsize state set_module_random].
      cbn zeta.
      destruct (in_grid (gridsize w) ((state w).1 + delta.1,
                                      (state w).2 + delta.2)).
      - reflexivity.
      - unfold ret. now destruct w. }
    rewrite (bind_ok _ _ _ _ _ Hw).
    rewrite !bind_gets. cbn beta. unfold outcome.
    destruct (array_eq_all (state w') (goal_state w')).
    - rewrite (bind_ok _ _ _ _ _ (observe_ok w' Hc')). reflexivity.
    - destruct (list_contains (obstacle_states w') (state w'));
        rewrite (bind_ok _ _ _ _ _ (observe_ok w' Hc')); reflexivity. }
  unfold effective_action in He. unfold step.
  rewrite bind_gets. cbn beta.
  unfold bind at 1 in He.
  destruct (binomial1 (stochasticity w) (module_random w)) as [[b|e'] g1] eqn:Eb;
    [|discriminate].
  erewrite bind_ok by (unfold np_random_module; rewrite Eb; reflexivity).
  destruct (negb (b =? 0)).
  - erewrite bind_ok
      by (unfold np_random_module; cbn [module_random set_module_random];
          rewrite He; reflexivity).
    exact Hrest.
  - injection He as -> ->. rewrite bind_ret. exact Hrest.
Qed.

(** ** The action table *)

Lemma ACTIONS_lookup (a : Z) : ACTIONS !! a = action_delta a.
Proof.
  unfold ACTIONS, action_delta.
  repeat (rewrite lookup_insert; destruct (decide _) as [<-|?];
          [reflexivity|]).
  rewrite lookup_singleton. destruct (decide _) as [<-|?]; [reflexivity|].
  repeat (destruct (_ =? _) eqn:E; [apply Z.eqb_eq in E; congruence|clear E]).
  reflexivity.
Qed.

Lemma ACTIONS_valid (a : Z) :
  0 <= a <= 3 -> exists delta, ACTIONS !! a = Some delta.
Proof.
  intros H. rewrite ACTIONS_lookup.
  assert (a = 0 \/ a = 1 \/ a = 2 \/ a = 3) as [-> | [-> | [-> | ->]]] by lia;
    eexists; reflexivity.
Qed.

Lemma ACTIONS_invalid (a : Z) : ~ 0 <= a <= 3 -> ACTIONS !! a = None.
Proof.
  intros H. rewrite ACTIONS_lookup. unfold action_delta.
  repeat (destruct (_ =? _) eqn:E; [apply Z.eqb_eq in E; lia|clear E]).
  reflexivity.
Qed.

Lemma ACTIONS_Some_valid (a : Z) (delta : Z * Z) :
  ACTIONS !! a = Some delta -> 0 <= a <= 3.
Proof.
  intros H. destruct (decide (0 <= a <= 3)) as [Hv|Hv]; [exact Hv|].
  rewrite ACTIONS_invalid in H by exact Hv. discriminate.
Qed.

(** ** The stochastic override *)

Lemma effective_action_zero (p : Q) (action : Z) (g : RandomState) :
  (p == 0)%Q -> effective_action p action g = (Ok action, advance g).
Proof.
  intros Hp. unfold effective_action.
  now rewrite (bind_ok _ _ _ _ _ (binomial1_zero p g Hp)).
Qed.

Lemma effective_action_cases (p : Q) (action : Z) (g : RandomState) :
  (0 <= p)%Q -> (p <= 1)%Q ->
  exists b, binomial1 p g = (Ok b, advance g) /\
    ((b = 0 /\ effective_action p action g = (Ok action, advance g)) \/
     (b = 1 /\ exists a, 0 <= a <= 3 /\
        randint 0 4 (advance g) = (Ok a, advance (advance g)) /\
        effective_action p action g = (Ok a, advance (advance g)))).
Proof.
  intros H0 H1. destruct (binomial1_ok p g H0 H1) as (b & Eb & Hb).
  exists b. split; [exact Eb|].
  unfold effective_action. rewrite (bind_ok _ _ _ _ _ Eb).
  destruct Hb as [-> | ->]; cbn [Z.eqb negb].
  - left. split; reflexivity.
  - right. split; [reflexivity|].
    destruct (randint_ok 0 4 (advance g) ltac:(lia)) as (a & Ea & Ha).
    exists a. split; [lia|]. split; exact Ea.
Qed.

Lemma effective_action_raise (p : Q) (action : Z) (g : RandomState) :
  (p < 0)%Q \/ (1 < p)%Q ->
  effective_action p action g = (Raise ValueError, g).
Proof.
  intros Hp. unfold effective_action. apply bind_raise.
  now apply binomial1_raise.
Qed.

(** Every step that returns went through the table and the movement
    rule. *)
Lemma step_inv (action : Z) (w : World) r (w' : World) :
  configured w -> step action w = (Ok r, w') ->
  exists a g delta,
    effective_action (stochasticity w) action (module_random w) = (Ok a, g) /\
    ACTIONS !! a = Some delta /\
    w' = after_step delta g w /\
    r = (observation_of w', (outcome w').1.1, (outcome w').1.2, (outcome w').2).
Proof.
  intros Hc Hs.
  destruct (effective_action (stochasticity w) action (module_random w))
    as [[a|e] g] eqn:He.
  - destruct (ACTIONS !! a) as [delta|] eqn:Ha.
    + pose proof (step_transition action w a g delta Hc He Ha) as Ht.
      cbn zeta in Ht. rewrite Ht in Hs. injection Hs as <- <-.
      exists a, g, delta. repeat split; assumption.
    + rewrite (step_key_error action w a g He Ha) in Hs. discriminate.
  - rewrite (step_draw_raise action w e g He) in Hs. discriminate.
Qed.

(** A step with an action of the table and a stochasticity in range
    returns. *)
Lemma step_returns (action : Z) (w : World) :
  configured w -> (0 <= stochasticity w)%Q -> (stochasticity w <= 1)%Q ->
  0 <= action <= 3 ->
  exists r w', step action w = (Ok r, w').
Proof.
  intros Hc H0 H1 Ha.
  destruct (effective_action_cases (stochasticity w) action (module_random w)
              H0 H1) as (b & _ & [(_ & He) | (_ & a & Hr & _ & He)]).
  - destruct (ACTIONS_valid action Ha) as (delta & Hd).
    eexists _, _. exact (step_transition action w action _ delta Hc He Hd).
  - destruct (ACTIONS_valid a Hr) as (delta & Hd).
    eexists _, _. exact (step_transition action w a _ delta Hc He Hd).
Qed.

(** ** Reading the outcome off the grid *)

Lemma outcome_goal (w : World) :
  state w = goal_state w -> outcome w = (1000, true, mk_info [0]).
Proof.
  intros E. unfold outcome.
  now rewrite (proj2 (array_eq_all_spec _ _) E).
Qed.

Lemma outcome_not_goal (w : World) :
  state w <> goal_state w ->
  outcome w = (-1, false,
               mk_info [if list_contains (obstacle_states w) (state w)
                        then 1 else 0]).
Proof.
  intros Hne. unfold outcome.
  destruct (array_eq_all (state w) (goal_state w)) eqn:E.
  - apply array_eq_all_spec in E. contradiction.
  - now destruct (list_contains _ _).
Qed.

Lemma obstacle_contains (w : World) :
  configured w ->
  list_contains (obstacle_states w) (state w) = true <->
  getitem2 (art w) (state w).1 (state w).2 = Ok OBSTACLE_CHAR.
Proof.
  intros (Hart & _ & _ & Hobs & _ & Hin).
  rewrite list_contains_spec, Hobs.
  apply in_grid_spec in Hin. destruct (state w) as [i j]. cbn [fst snd] in *.
  rewrite (elem_of_argwhere (gridsize w)) by exact Hart. tauto.
Qed.

(** The goal position holds the goal character. *)
Lemma goal_cell (w : World) :
  configured w ->
  getitem2 (art w) (goal_state w).1 (goal_state w).2 = Ok GOAL_CHAR.
Proof.
  intros (Hart & _ & Hgoal & _).
  destruct (argwhere (art w) GOAL_CHAR) as [|p l] eqn:E; [discriminate|].
  cbn in Hgoal. injection Hgoal as ->.
  assert (Hin : goal_state w ∈ argwhere (art w) GOAL_CHAR) by (rewrite E; left).
  destruct (goal_state w) as [i j].
  apply (elem_of_argwhere (gridsize w)) in Hin; [|exact Hart].
  apply Hin.
Qed.

(** ** What does not depend on the module-level generator *)

(** Without stochasticity an action of the table moves the agent by its
    entry, whatever the module-level generator holds. *)
Lemma step_moves_by_table (action : Z) (w : World) (delta : Z * Z) :
  configured w -> (stochasticity w == 0)%Q ->
  ACTIONS !! action = Some delta ->
  is_ok (run (step action) w) = true /\
  state (exec (step action) w) = moved (gridsize w) (state w) delta.
Proof.
  intros Hc Hz Ha.
  pose proof (effective_action_zero _ action (module_random w) Hz) as He.
  pose proof (step_transition action w action _ delta Hc He Ha) as Ht.
  cbn zeta in Ht. unfold run, exec. rewrite Ht. split; reflexivity.
Qed.

Lemma step_ignores_module_random (action : Z) (w : World) (m : RandomState) :
  configured w -> (stochasticity w == 0)%Q ->
  run (step action) (set_module_random m w) = run (step action) w.
Proof.
  intros Hc Hz.
  assert (Hc' : configured (set_module_random m w)).
  { destruct Hc as (H1 & H2 & H3 & H4 & H5 & H6).
    repeat split; try assumption; apply H1 || apply H2. }
  pose proof (effective_action_zero _ action (module_random w) Hz) as He.
  pose proof (effective_action_zero (stochasticity (set_module_random m w))
                action (module_random (set_module_random m w)) Hz) as He'.
  unfold run. destruct (ACTIONS !! action) as [delta|] eqn:Ha.
  - rewrite (step_transition action w action _ delta Hc He Ha).
    rewrite (step_transition action _ action _ delta Hc' He' Ha).
    reflexivity.
  - rewrite (step_key_error action w action _ He Ha).
    rewrite (step_key_error action _ action _ He' Ha).
    reflexivity.
Qed.

(** * The claims *)

Ltac by_computation :=
  vm_compute; repeat split; first [reflexivity | discriminate | idtac].

(** C1 (the code departs from it).  On the 3 by 3 grid without
    stochasticity, from the centre (1, 1), where every neighbour is on the
    grid, action 0 takes the agent to (0, 1), a change of (-1, 0), and
    action 2 to (2, 1), a change of (+1, 0): the reverse of the documented
    Down and Up.  Actions 1 and 3 change the column by -1 and +1. *)
Theorem C1_action_0_decrements_the_row :
  let w := walk [1; 0] grid3 in
  gridsize w = 3 /\ Qeq (stochasticity w) 0 /\ state w = (1, 1) /\
  is_ok (run (step 0) w) = true /\
  state (exec (step 0) w) = (0, 1) /\
  state (exec (step 1) w) = (1, 0) /\
  state (exec (step 2) w) = (2, 1) /\
  state (exec (step 3) w) = (1, 2).
Proof. by_computation. Qed.

(** C2 (the code departs from it).  Two processes seed with 42, configure
    the same game and take the same step; they differ only in the state of
    numpy's module-level generator, which [seed] does not touch and [step]
    draws from.  The first moves left, the second is overridden and stays:
    the observations differ. *)
Theorem C2_same_seed_two_trajectories :
  let process_a := unset (constant_tape 0) (constant_tape 0) in
  let process_b := unset (constant_tape 0) (constant_tape (2 ^ 53 - 1)) in
  run episode process_a
    = Ok [(OneHot [0; 0; 0; 0; 0; 0; 0; 1; 0], -1, false, mk_info [0])] /\
  run episode process_b
    = Ok [(OneHot [0; 0; 0; 0; 0; 0; 0; 0; 1], -1, false, mk_info [0])] /\
  run episode process_a <> run episode process_b.
Proof. by_computation. Qed.

(** C3.  For every [gridsize >= 2], every [rho] in [[0, 1]] and every
    state of the generator, [build_asci_art] returns a grid of
    [gridsize * gridsize] cells in which the goal character is at exactly
    one cell, in row 0; no cell of row 0 or of the last row is an obstacle;
    and the bottom-right cell holds the start marker, so it is neither an
    obstacle nor the goal. *)
Theorem C3_generated_grid_invariant (n : Z) (r : Q) (w : World) :
  2 <= n -> (0 <= r)%Q -> (r <= 1)%Q ->
  exists flat w' a alpha,
    build_asci_art n r w = (Ok flat, w') /\
    reshape flat n n = Ok a /\
    0 <= alpha < n /\
    (forall i j, 0 <= i < n -> 0 <= j < n ->
       (getitem2 a i j = Ok GOAL_CHAR <-> i = 0 /\ j = alpha)) /\
    (forall j, 0 <= j < n ->
       getitem2 a 0 j <> Ok OBSTACLE_CHAR /\
       getitem2 a (n - 1) j <> Ok OBSTACLE_CHAR) /\
    getitem2 a (n - 1) (n - 1) = Ok PLAYER_CHAR /\
    PLAYER_CHAR <> OBSTACLE_CHAR /\ PLAYER_CHAR <> GOAL_CHAR.
Proof.
  intros Hn H0 H1.
  destruct (build_asci_art_ok n r w Hn (or_intror (conj H0 H1)))
    as (alpha & rows & g & Eb & Ha & Hrows).
  destruct (art_rows_grid n alpha rows Hn Ha Hrows) as (a & Er & Hg).
  exists (concat rows), (set_np_random g w), a, alpha.
  split; [exact Eb|]. split; [exact Er|]. split; [exact Ha|].
  split; [|split; [|split; [|split]]].
  - intros i j Hi Hj. now apply (generated_goal_iff n alpha).
  - intros j Hj. split; intros E.
    + apply (generated_border_free n alpha) in E; auto; lia.
    + apply (generated_border_free n alpha) in E; auto; lia.
  - now apply (generated_start n alpha).
  - discriminate.
  - discriminate.
Qed.

Lemma C3_witness :
  2 <= 3 /\ (0 <= 1 # 2)%Q /\ (1 # 2 <= 1)%Q /\
  exists flat w' a alpha,
    build_asci_art 3 (1 # 2) (unset (constant_tape 5) (constant_tape 0))
      = (Ok flat, w') /\
    reshape flat 3 3 = Ok a /\
    0 <= alpha < 3 /\
    (forall i j, 0 <= i < 3 -> 0 <= j < 3 ->
       (getitem2 a i j = Ok GOAL_CHAR <-> i = 0 /\ j = alpha)) /\
    (forall j, 0 <= j < 3 ->
       getitem2 a 0 j <> Ok OBSTACLE_CHAR /\
       getitem2 a (3 - 1) j <> Ok OBSTACLE_CHAR) /\
    getitem2 a (3 - 1) (3 - 1) = Ok PLAYER_CHAR /\
    PLAYER_CHAR <> OBSTACLE_CHAR /\ PLAYER_CHAR <> GOAL_CHAR.
Proof.
  split; [lia|]. split; [vm_compute; discriminate|].
  split; [vm_compute; discriminate|].
  apply (C3_generated_grid_invariant 3 (1 # 2)
           (unset (constant_tape 5) (constant_tape 0)));
    [lia | vm_compute; discriminate | vm_compute; discriminate].
Defined.

(** C4.  A step with an action of the table returns; and whenever a step
    returns, it has carried out an action of the table, the position is the
    one the movement rule gives, and nothing else of the object has changed;
    its reward is 1000 and [done] is true if that position is the goal
    position, and its reward is -1 and [done] is false otherwise.  Nothing
    else enters: the world carries no step counter and no terminal flag. *)
Theorem C4_reward_and_done (action : Z) (w : World) :
  configured w ->
  ((0 <= stochasticity w)%Q -> (stochasticity w <= 1)%Q -> 0 <= action <= 3 ->
   exists r w', step action w = (Ok r, w')) /\
  forall obs reward done info w',
    step action w = (Ok (obs, reward, done, info), w') ->
    exists a g delta,
      effective_action (stochasticity w) action (module_random w) = (Ok a, g) /\
      ACTIONS !! a = Some delta /\
      let p := moved (gridsize w) (state w) delta in
      w' = after_step delta g w /\
      state w' = p /\ goal_state w' = goal_state w /\
      (p = goal_state w -> reward = 1000 /\ done = true) /\
      (p <> goal_state w -> reward = -1 /\ done = false).
Proof.
  intros Hc. split; [now apply step_returns|].
  intros obs reward done info w' Hs.
  destruct (step_inv action w _ w' Hc Hs) as (a & g & delta & He & Ha & -> & E).
  exists a, g, delta. split; [exact He|]. split; [exact Ha|]. cbn zeta.
  split; [reflexivity|]. split; [reflexivity|]. split; [reflexivity|].
  injection E as _ -> -> _.
  change (moved (gridsize w) (state w) delta)
    with (state (after_step delta g w)).
  change (goal_state w) with (goal_state (after_step delta g w)).
  split; intros Hg.
  - now rewrite (outcome_goal _ Hg).
  - now rewrite (outcome_not_goal _ Hg).
Qed.

Lemma C4_witness :
  configured (walk [1; 0] grid3) /\
  (exists r w', step 0 (walk [1; 0] grid3) = (Ok r, w')) /\
  (exists obs info w',
     step 0 (walk [1; 0] grid3) = (Ok (obs, 1000, true, info), w') /\
     state w' = (0, 1)) /\
  (exists obs info w',
     step 1 (walk [1; 0] grid3) = (Ok (obs, -1, false, info), w') /\
     state w' = (1, 0)).
Proof.
  assert (Hc : configured (walk [1; 0] grid3)) by by_computation.
  assert (Hz : Qeq (stochasticity (walk [1; 0] grid3)) 0) by reflexivity.
  split; [exact Hc|].
  split; [|split].
  - destruct (C4_reward_and_done 0 (walk [1; 0] grid3) Hc) as [Hret _].
    apply Hret; [vm_compute; discriminate | vm_compute; discriminate | lia].
  - destruct (C4_reward_and_done 0 (walk [1; 0] grid3) Hc) as [_ Hlaw].
    destruct (step 0 (walk [1; 0] grid3)) as [[[[[obs r] d] i]|e] w'] eqn:E;
      [|vm_compute in E; discriminate].
    destruct (Hlaw obs r d i w' eq_refl)
      as (a & g & delta & He & Ha & _ & Hst & _ & Hgoal & _).
    rewrite effective_action_zero in He by exact Hz.
    assert (Ea : Ok 0 = Ok a) by exact (f_equal fst He).
    injection Ea as <-. clear He.
    vm_compute in Ha. injection Ha as <-.
    destruct Hgoal as [-> ->]; [vm_compute; reflexivity|].
    exists obs, i, w'. split; [reflexivity|]. rewrite Hst.
    vm_compute. reflexivity.
  - destruct (C4_reward_and_done 1 (walk [1; 0] grid3) Hc) as [_ Hlaw].
    destruct (step 1 (walk [1; 0] grid3)) as [[[[[obs r] d] i]|e] w'] eqn:E;
      [|vm_compute in E; discriminate].
    destruct (Hlaw obs r d i w' eq_refl)
      as (a & g & delta & He & Ha & _ & Hst & _ & _ & Hother).
    rewrite effective_action_zero in He by exact Hz.
    assert (Ea : Ok 1 = Ok a) by exact (f_equal fst He).
    injection Ea as <-. clear He.
    vm_compute in Ha. injection Ha as <-.
    destruct Hother as [-> ->]; [vm_compute; discriminate|].
    exists obs, i, w'. split; [reflexivity|]. rewrite Hst.
    vm_compute. reflexivity.
Defined.

(** C5.  Whenever a step returns, its constraint cost is 1 if the position
    after the movement rule is an obstacle cell of the grid and is not the
    goal position, and 0 in every other case; in particular it is 0 at the
    goal position, whatever the cell.  A step with an action of the table
    returns. *)
Theorem C5_constraint_cost (action : Z) (w : World) :
  configured w ->
  ((0 <= stochasticity w)%Q -> (stochasticity w <= 1)%Q -> 0 <= action <= 3 ->
   exists r w', step action w = (Ok r, w')) /\
  forall obs reward done info w',
    step action w = (Ok (obs, reward, done, info), w') ->
    let on_obstacle :=
      getitem2 (art w') (state w').1 (state w').2 = Ok OBSTACLE_CHAR in
    (on_obstacle /\ state w' <> goal_state w' -> constraint_costs info = [1]) /\
    (~ (on_obstacle /\ state w' <> goal_state w') ->
     constraint_costs info = [0]).
Proof.
  intros Hc. split; [now apply step_returns|].
  intros obs reward done info w' Hs.
  destruct (step_inv action w _ w' Hc Hs) as (a & g & delta & _ & _ & Ew & E).
  pose proof (after_step_configured delta g w Hc) as Hc'. rewrite <- Ew in Hc'.
  injection E as _ _ _ ->. cbn zeta.
  pose proof (obstacle_contains w' Hc') as Hobs.
  split.
  - intros [Hon Hne]. rewrite (outcome_not_goal _ Hne).
    now rewrite (proj2 Hobs Hon).
  - intros Hnot.
    destruct (decide (state w' = goal_state w')) as [Hg|Hne].
    + now rewrite (outcome_goal _ Hg).
    + rewrite (outcome_not_goal _ Hne).
      destruct (list_contains (obstacle_states w') (state w')) eqn:El;
        [|reflexivity].
      exfalso. apply Hnot. split; [now apply Hobs|exact Hne].
Qed.

Lemma C5_witness :
  configured grid3_obstacles /\
  exists obs reward done info w',
    step 0 grid3_obstacles = (Ok (obs, reward, done, info), w') /\
    state w' = (1, 2) /\ constraint_costs info = [1].
Proof.
  assert (Hc : configured grid3_obstacles) by by_computation.
  split; [exact Hc|].
  destruct (C5_constraint_cost 0 grid3_obstacles Hc) as [_ Hlaw].
  destruct (step 0 grid3_obstacles) as [[[[[obs r] d] i]|e] w'] eqn:E;
    [|vm_compute in E; discriminate].
  destruct (Hlaw obs r d i w' eq_refl) as (Hone & _).
  assert (Hw : w' = exec (step 0) grid3_obstacles)
    by (unfold exec; now rewrite E).
  exists obs, r, d, i, w'. split; [reflexivity|].
  split; [rewrite Hw; by_computation|].
  apply Hone. rewrite Hw. by_computation.
Defined.

(** C6 (the code departs from it).  The movement rule itself is as
    claimed, and Left, action 1, is absorbed at the left edge.  But Up is
    action 2 in the documented encoding, and the table gives action 2 the
    delta (+1, 0): on the 3 by 3 grid whose interior row is all obstacles,
    without stochasticity, from (0, 0), an empty cell, [step 2] takes the
    agent to (1, 0), an obstacle, with constraint cost 1, where the claim
    has the position unchanged and the cost 0. *)
Theorem C6_up_from_the_corner_moves_down :
  let w := walk [1; 1; 0; 0] grid3_obstacles in
  Qeq (stochasticity w) 0 /\ state w = (0, 0) /\
  getitem2 (art w) 0 0 = Ok EMPTY_CHAR /\
  state (exec (step 2) w) = (1, 0) /\
  (exists obs, run (step 2) w = Ok (obs, -1, false, mk_info [1])) /\
  state (exec (step 1) w) = (0, 0) /\
  (exists obs, run (step 1) w = Ok (obs, -1, false, mk_info [0])).
Proof.
  vm_compute.
  split; [reflexivity|]. split; [reflexivity|]. split; [reflexivity|].
  split; [reflexivity|]. split; [eexists; reflexivity|].
  split; [reflexivity|]. eexists; reflexivity.
Qed.

(** C7, as the code has it.  [make_game] validates nothing and has no
    error of its own.  It raises [ValueError], from the library calls it
    reaches, whenever [gridsize < 2], and whenever [gridsize >= 3] and [rho]
    is outside [[0, 1]].  It succeeds whenever [gridsize >= 2] and [rho] is
    in [[0, 1]], and also for [gridsize = 2] with any [rho], since no
    obstacle is drawn then; [stochasticity] is stored as given, whatever its
    value. *)
Theorem C7_make_game_checks_nothing (n : Z) (r s : Q) (io : bool) (w : World) :
  (n < 2 -> run (make_game n r s io) w = Raise ValueError) /\
  (3 <= n -> (r < 0)%Q \/ (1 < r)%Q ->
   run (make_game n r s io) w = Raise ValueError) /\
  (2 <= n -> n = 2 \/ ((0 <= r)%Q /\ (r <= 1)%Q) ->
   run (make_game n r s io) w = Ok tt /\
   stochasticity (exec (make_game n r s io) w) = s /\
   configured (exec (make_game n r s io) w)).
Proof.
  split; [|split].
  - apply make_game_size_lt_2.
  - apply make_game_bad_rho.
  - intros Hn Hr.
    destruct (make_game_ok n r s io w Hn Hr)
      as (w' & alpha & E & _ & _ & Hs & _ & _ & _ & _ & _ & _ & _ & Hc).
    unfold run, exec. rewrite E.
    split; [reflexivity|]. split; [exact Hs|exact Hc].
Qed.

Lemma C7_witness :
  let w := unset (constant_tape 1) (constant_tape 0) in
  run (make_game 1 0 0 false) w = Raise ValueError /\
  run (make_game 3 (3 # 2) 0 false) w = Raise ValueError /\
  run (make_game 3 (1 # 2) 7 false) w = Ok tt.
Proof.
  intros w. split; [|split].
  - destruct (C7_make_game_checks_nothing 1 0 0 false w) as (Hsmall & _).
    apply Hsmall. lia.
  - destruct (C7_make_game_checks_nothing 3 (3 # 2) 0 false w)
      as (_ & Hrho & _).
    apply Hrho; [lia | right; vm_compute; reflexivity].
  - destruct (C7_make_game_checks_nothing 3 (1 # 2) 7 false w)
      as (_ & _ & Hfine).
    apply Hfine; [lia | right; split; vm_compute; discriminate].
Defined.

(** C7 as stated fails: a stochasticity of 2 and, on a 2 by 2 grid, a
    density of 5 are both outside [[0, 1]], and the configuration
    succeeds. *)
Lemma C7_counterexample :
  let w := unset (constant_tape 1) (constant_tape 0) in
  (1 < 2)%Q /\ run (make_game 3 0 2 false) w = Ok tt /\
  (1 < 5)%Q /\ run (make_game 2 5 0 false) w = Ok tt.
Proof. by_computation. Qed.

(** C8, as the code has it.  For an action outside the table and a
    stochasticity in [[0, 1]], [step] first draws the override trial from
    the module-level generator.  If the trial fails, the table lookup raises
    [KeyError]: the position and every attribute are as before, but the
    generator has advanced by that draw.  If the trial succeeds, the
    replacement action drawn next is carried out and the step returns.
    With stochasticity 0 the trial always fails. *)
Theorem C8_action_outside_table (action : Z) (w : World) :
  configured w -> (0 <= stochasticity w)%Q -> (stochasticity w <= 1)%Q ->
  ~ 0 <= action <= 3 ->
  let g := module_random w in
  exists b,
    binomial1 (stochasticity w) g = (Ok b, advance g) /\
    ((stochasticity w == 0)%Q -> b = 0) /\
    ((b = 0 /\
      step action w = (Raise KeyError, set_module_random (advance g) w)) \/
     (b = 1 /\
      exists a delta r,
        randint 0 4 (advance g) = (Ok a, advance (advance g)) /\
        ACTIONS !! a = Some delta /\
        step action w = (Ok r, after_step delta (advance (advance g)) w))).
Proof.
  intros Hc H0 H1 Hout g.
  destruct (effective_action_cases (stochasticity w) action g H0 H1)
    as (b & Eb & Hcases).
  exists b. split; [exact Eb|]. split.
  - intros Hz. rewrite (binomial1_zero _ g Hz) in Eb. congruence.
  - destruct Hcases as [(-> & He) | (-> & a & Hr & Era & He)].
    + left. split; [reflexivity|].
      apply (step_key_error action w action); [exact He|].
      now apply ACTIONS_invalid.
    + right. split; [reflexivity|].
      destruct (ACTIONS_valid a Hr) as (delta & Hd).
      exists a, delta. eexists. split; [exact Era|]. split; [exact Hd|].
      exact (step_transition action w a _ delta Hc He Hd).
Qed.

Lemma C8_witness :
  configured grid3 /\
  run (step 7) grid3 = Raise KeyError /\
  state (exec (step 7) grid3) = state grid3 /\
  cursor (module_random (exec (step 7) grid3))
    = S (cursor (module_random grid3)).
Proof.
  assert (Hc : configured grid3) by by_computation.
  split; [exact Hc|].
  destruct (C8_action_outside_table 7 grid3 Hc) as (b & _ & Hz & Hcases);
    [vm_compute; discriminate | vm_compute; discriminate | lia |].
  destruct Hcases as [(_ & E) | (Hb & _)].
  - unfold run, exec. rewrite E. repeat split.
  - exfalso. rewrite Hz in Hb by reflexivity. discriminate.
Defined.

(** C8 as stated fails.  With stochasticity 1/2, [step 7] returns when the
    override is drawn; and when it is not, [KeyError] is raised only after
    the module-level generator has advanced. *)
Lemma C8_counterexample :
  let overridden := grid3_stochastic (constant_tape (2 ^ 53 - 1)) in
  let kept := grid3_stochastic (constant_tape 0) in
  ~ 0 <= 7 <= 3 /\
  run (step 7) overridden
    = Ok (OneHot [0; 0; 0; 0; 0; 0; 0; 0; 1], -1, false, mk_info [0]) /\
  run (step 7) kept = Raise KeyError /\
  cursor (module_random kept) = 0%nat /\
  cursor (module_random (exec (step 7) kept)) = 1%nat.
Proof. split; [lia|]. by_computation. Qed.

(** C9.  For every position (row, col) of the grid, the one-hot
    observation has [gridsize * gridsize] entries, a 1 at index
    [row * gridsize + col] and 0 elsewhere; and the image observation has the
    shape of the cached image, the player colour (1, 0, 0) at (row, col),
    whatever the cached image holds there, and the cached image's pixel
    everywhere else.  Neither changes the world. *)
Theorem C9_observations (w : World) (row col : Z) :
  configured w -> 0 <= row < gridsize w -> 0 <= col < gridsize w ->
  let n := gridsize w in
  let w' := set_state (row, col) w in
  (exists obs,
     state_to_oh w' = (Ok obs, w') /\
     Z.of_nat (length obs) = n * n /\
     forall k, 0 <= k < n * n ->
       obs !! Z.to_nat k = Some (if k =? row * n + col then 1 else 0)) /\
  (exists img,
     state_to_img w' = (Ok img, w') /\
     shaped n img /\
     dict_getitem FG_COLORS PLAYER_CHAR = Ok (1, 0, 0) /\
     getitem2 img row col = Ok (1, 0, 0) /\
     forall i j, 0 <= i < n -> 0 <= j < n -> (i, j) <> (row, col) ->
       getitem2 img i j = getitem2 (art_img w) i j).
Proof.
  intros (_ & Himg & _) Hrow Hcol n w'.
  assert (Hin : in_grid (gridsize w') (state w') = true)
    by (apply in_grid_spec; cbn; lia).
  split.
  - exists (one_hot n (row, col)). split; [now apply state_to_oh_ok|].
    split; [apply one_hot_length|].
    intros k Hk. now apply (one_hot_lookup n (row, col)).
  - exists (player_image (art_img w) (row, col)).
    split; [now apply (state_to_img_ok w')|].
    destruct (player_image_spec n (art_img w) (row, col) Himg Hrow Hcol)
      as (Hs & Hp & Hothers).
    split; [exact Hs|]. split; [reflexivity|]. split; [exact Hp|].
    exact Hothers.
Qed.

Lemma C9_witness :
  configured grid3_obstacles /\ 0 <= 1 < gridsize grid3_obstacles /\
  0 <= 2 < gridsize grid3_obstacles /\
  getitem2 (art_img grid3_obstacles) 1 2 = Ok (0, 0, 1) /\
  (exists obs,
     state_to_oh (set_state (1, 2) grid3_obstacles)
       = (Ok obs, set_state (1, 2) grid3_obstacles) /\
     obs !! 5%nat = Some 1) /\
  (exists img,
     state_to_img (set_state (1, 2) grid3_obstacles)
       = (Ok img, set_state (1, 2) grid3_obstacles) /\
     getitem2 img 1 2 = Ok (1, 0, 0)).
Proof.
  assert (Hc : configured grid3_obstacles) by by_computation.
  assert (H1 : 0 <= 1 < gridsize grid3_obstacles) by by_computation.
  assert (H2 : 0 <= 2 < gridsize grid3_obstacles) by by_computation.
  split; [exact Hc|]. split; [exact H1|]. split; [exact H2|].
  split; [by_computation|].
  destruct (C9_observations grid3_obstacles 1 2 Hc H1 H2)
    as [(obs & Eo & _ & Hk) (img & Ei & _ & _ & Hp & _)].
  split.
  - exists obs. split; [exact Eo|]. apply (Hk 5). by_computation.
  - exists img. split; [exact Ei|exact Hp].
Defined.

(** C10.  The world records no terminal flag.  After a step that returned
    [done] the agent is on the goal cell of a configured world, and a
    further step, whatever the stochasticity, follows the rules of any
    other step: it returns for an action of the table, it carries out an
    action of the table, the position is the one the movement rule gives
    from the goal cell, and the reward is 1000 with [done] exactly when that
    position is the goal, and -1 without [done] when the agent has left it.
    In particular, with stochasticity 0, if the move is absorbed at the
    boundary, the agent is still on the goal cell and the step returns
    reward 1000 and [done] again. *)
Theorem C10_step_after_done (a1 a2 : Z) (w w1 : World) (obs1 : Observation)
    (r1 : Z) (i1 : Info) :
  configured w ->
  step a1 w = (Ok (obs1, r1, true, i1), w1) ->
  configured w1 /\ state w1 = goal_state w1 /\
  ((0 <= stochasticity w1)%Q -> (stochasticity w1 <= 1)%Q -> 0 <= a2 <= 3 ->
   exists r w2, step a2 w1 = (Ok r, w2)) /\
  (forall obs2 r2 d2 i2 w2,
     step a2 w1 = (Ok (obs2, r2, d2, i2), w2) ->
     exists a g delta,
       effective_action (stochasticity w1) a2 (module_random w1) = (Ok a, g) /\
       ACTIONS !! a = Some delta /\
       let p := moved (gridsize w1) (state w1) delta in
       w2 = after_step delta g w1 /\ state w2 = p /\
       (p = goal_state w1 -> r2 = 1000 /\ d2 = true) /\
       (p <> goal_state w1 -> r2 = -1 /\ d2 = false)) /\
  ((stochasticity w1 == 0)%Q ->
   forall delta, ACTIONS !! a2 = Some delta ->
     in_grid (gridsize w1) ((state w1).1 + delta.1, (state w1).2 + delta.2)
       = false ->
     exists obs2 i2 w2,
       step a2 w1 = (Ok (obs2, 1000, true, i2), w2) /\
       state w2 = state w1).
Proof.
  intros Hc Hs.
  destruct (step_inv a1 w _ w1 Hc Hs) as (a & g & d & _ & _ & Ew & E).
  pose proof (after_step_configured d g w Hc) as Hc1. rewrite <- Ew in Hc1.
  assert (Hgoal : state w1 = goal_state w1).
  { injection E as _ _ Hd _. unfold outcome in Hd.
    destruct (array_eq_all (state w1) (goal_state w1)) eqn:Eg.
    - now apply array_eq_all_spec.
    - destruct (list_contains _ _); discriminate. }
  split; [exact Hc1|]. split; [exact Hgoal|].
  split; [now apply step_returns|]. split.
  - intros obs2 r2 d2 i2 w2 Hs2.
    destruct (step_inv a2 w1 _ w2 Hc1 Hs2)
      as (a' & g' & delta & He & Ha & -> & E2).
    exists a', g', delta. split; [exact He|]. split; [exact Ha|]. cbn zeta.
    split; [reflexivity|]. split; [reflexivity|].
    injection E2 as _ -> -> _.
    change (moved (gridsize w1) (state w1) delta)
      with (state (after_step delta g' w1)).
    change (goal_state w1) with (goal_state (after_step delta g' w1)).
    split; intros Hg.
    + now rewrite (outcome_goal _ Hg).
    + now rewrite (outcome_not_goal _ Hg).
  - intros Hz delta Ha Hout.
    pose proof (effective_action_zero _ a2 (module_random w1) Hz) as He.
    pose proof (step_transition a2 w1 a2 _ delta Hc1 He Ha) as Ht.
    cbn zeta in Ht.
    set (w2 := after_step delta (advance (module_random w1)) w1) in *.
    assert (Hst : state w2 = state w1).
    { unfold w2, after_step, moved. cbn [state set_state]. cbn zeta.
      now rewrite Hout. }
    assert (Hg2 : state w2 = goal_state w2).
    { rewrite Hst, Hgoal. reflexivity. }
    rewrite Ht, (outcome_goal _ Hg2). eexists _, _, _.
    split; [reflexivity|exact Hst].
Qed.

Lemma C10_witness :
  configured (walk [1; 0] grid3) /\
  exists obs1 i1 w1,
    step 0 (walk [1; 0] grid3) = (Ok (obs1, 1000, true, i1), w1) /\
    (exists obs2 i2 w2,
       step 0 w1 = (Ok (obs2, 1000, true, i2), w2) /\ state w2 = state w1) /\
    (exists obs3 i3 w3,
       step 1 w1 = (Ok (obs3, -1, false, i3), w3) /\ state w3 = (0, 0)).
Proof.
  assert (Hc : configured (walk [1; 0] grid3)) by by_computation.
  split; [exact Hc|].
  destruct (step 0 (walk [1; 0] grid3)) as [[[[[obs1 r1] d1] i1]|e] w1] eqn:E;
    [|vm_compute in E; discriminate].
  assert (Er : r1 = 1000 /\ d1 = true)
    by (vm_compute in E; split; congruence).
  destruct Er as [-> ->].
  assert (Ew : w1 = exec (step 0) (walk [1; 0] grid3))
    by (unfold exec; now rewrite E).
  assert (Hz : Qeq (stochasticity w1) 0) by (rewrite Ew; reflexivity).
  exists obs1, i1, w1. split; [reflexivity|]. split.
  - destruct (C10_step_after_done 0 0 (walk [1; 0] grid3) w1 obs1 1000 i1
                Hc E) as (_ & _ & _ & _ & Habsorbed).
    apply (Habsorbed Hz (-1, 0) eq_refl). rewrite Ew. by_computation.
  - destruct (C10_step_after_done 0 1 (walk [1; 0] grid3) w1 obs1 1000 i1
                Hc E) as (_ & _ & _ & Hrule & _).
    destruct (step 1 w1) as [[[[[obs3 r3] d3] i3]|e] w3] eqn:E3;
      [|rewrite Ew in E3; vm_compute in E3; discriminate].
    destruct (Hrule obs3 r3 d3 i3 w3 eq_refl)
      as (a & g & delta & He & Ha & _ & Hst & _ & Hleft).
    rewrite effective_action_zero in He by exact Hz.
    assert (Ea : Ok 1 = Ok a) by exact (f_equal fst He).
    injection Ea as <-. clear He.
    vm_compute in Ha. injection Ha as <-.
    destruct Hleft as [-> ->]; [rewrite Ew; vm_compute; discriminate|].
    exists obs3, i3, w3. split; [reflexivity|]. rewrite Hst, Ew.
    vm_compute. reflexivity.
Defined.

(** * Further properties of the environment *)

(** ** What a step leaves alone *)

(** Computing an observation never changes the world, whether it returns or
    raises: [state_to_img] works on a copy of the cached image. *)
Lemma state_to_oh_frame (w : World) : (state_to_oh w).2 = w.
Proof.
  unfold state_to_oh. rewrite bind_gets. cbn beta. rewrite bind_gets.
  destruct (state w) as [i j]. reflexivity.
Qed.

Lemma state_to_img_frame (w : World) : (state_to_img w).2 = w.
Proof.
  unfold state_to_img. rewrite bind_gets. cbn beta. rewrite bind_gets.
  destruct (state w) as [i j]. cbn beta iota.
  rewrite player_color, bind_lift_ok. reflexivity.
Qed.

Lemma observe_frame (w : World) : (observe w).2 = w.
Proof.
  unfold observe. rewrite bind_gets. destruct (img_observation w).
  - pose proof (state_to_img_frame w) as F. unfold bind.
    destruct (state_to_img w) as [[img|e] w']; cbn in F; now subst.
  - pose proof (state_to_oh_frame w) as F. unfold bind.
    destruct (state_to_oh w) as [[obs|e] w']; cbn in F; now subst.
Qed.

(** The whole of [step], by what the draws and the table give. *)
Lemma step_unfold (action : Z) (w : World) :
  step action w =
  match effective_action (stochasticity w) action (module_random w) with
  | (Raise e, g) => (Raise e, set_module_random g w)
  | (Ok a, g) =>
    match ACTIONS !! a with
    | None => (Raise KeyError, set_module_random g w)
    | Some delta =>
      let w' := after_step delta g w in
      match run observe w' with
      | Ok obs =>
        (Ok (obs, (outcome w').1.1, (outcome w').1.2, (outcome w').2), w')
      | Raise e => (Raise e, w')
      end
    end
  end.
Proof.
  destruct (effective_action (stochasticity w) action (module_random w))
    as [[a|e] g] eqn:He.
  2: { now apply step_draw_raise. }
  destruct (ACTIONS !! a) as [delta|] eqn:Ha.
  2: { now apply (step_key_error action w a). }
  cbn zeta. set (w' := after_step delta g w).
  assert (Hrest :
    (st <- gets state ;;
     delta <- lift (dict_getitem ACTIONS a) ;;
     let new_state := (st.1 + delta.1, st.2 + delta.2) in
     n <- gets gridsize ;;
     (if in_grid n new_state then modify (set_state new_state) else ret tt) ;;;
     st <- gets state ;;
     goal <- gets goal_state ;;
     obstacles <- gets obstacle_states ;;
     let '(reward, done, info) :=
       if array_eq_all st goal then (1000, true, mk_info [0])
       else if list_contains obstacles st then (-1, false, mk_info [1])
       else (-1, false, mk_info [0]) in
     obs <- observe ;;
     ret (obs, reward, done, info)) (set_module_random g w)
    = match run observe w' with
      | Ok obs =>
        (Ok (obs, (outcome w').1.1, (outcome w').1.2, (outcome w').2), w')
      | Raise e => (Raise e, w')
      end).
  { rewrite bind_gets. cbn beta. unfold dict_getitem. rewrite Ha.
    rewrite bind_lift_ok. cbn beta zeta. rewrite bind_gets. cbn beta.
    assert (Hw : (if in_grid (gridsize (set_module_random g w))
                       ((state (set_module_random g w)).1 + delta.1,
                        (state (set_module_random g w)).2 + delta.2)
                  then modify
                         (set_state
                            ((state (set_module_random g w)).1 + delta.1,
                             (state (set_module_random g w)).2 + delta.2))
                  else ret tt) (set_module_random g w) = (Ok tt, w')).
    { unfold w', after_step, moved. cbn [gridsize state set_module_random].
      cbn zeta.
      destruct (in_grid (gridsize w) ((state w).1 + delta.1,
                                      (state w).2 + delta.2)).
      - reflexivity.
      - unfold ret. now destruct w. }
    rewrite (bind_ok _ _ _ _ _ Hw).
    rewrite !bind_gets. cbn beta. unfold outcome, run.
    pose proof (observe_frame w') as F.
    destruct (observe w') as [[obs|e] w''] eqn:Eo; cbn in F; subst w''.
    - destruct (array_eq_all (state w') (goal_state w')).
      + rewrite (bind_ok _ _ _ _ _ Eo). reflexivity.
      + destruct (list_contains (obstacle_states w') (state w'));
          rewrite (bind_ok _ _ _ _ _ Eo); reflexivity.
    - destruct (array_eq_all (state w') (goal_state w')).
      + rewrite (bind_raise _ _ _ _ _ Eo). reflexivity.
      + destruct (list_contains (obstacle_states w') (state w'));
          rewrite (bind_raise _ _ _ _ _ Eo); reflexivity. }
  unfold effective_action in He. unfold step.
  rewrite bind_gets. cbn beta.
  unfold bind at 1 in He.
  destruct (binomial1 (stochasticity w) (module_random w)) as [[b|e'] g1] eqn:Eb;
    [|discriminate].
  erewrite bind_ok by (unfold np_random_module; rewrite Eb; reflexivity).
  destruct (negb (b =? 0)).
  - erewrite bind_ok
      by (unfold np_random_module; cbn [module_random set_module_random];
          rewrite He; reflexivity).
    exact Hrest.
  - injection He as -> ->. rewrite bind_ret. exact Hrest.
Qed.

(** The world a step leaves: the position may have moved by an entry of the
    table, the module-level generator may have advanced, and that is all. *)
Lemma step_exec (action : Z) (w : World) :
  exists st g,
    exec (step action) w = set_state st (set_module_random g w) /\
    (st = state w \/
     exists a delta, ACTIONS !! a = Some delta /\
                     st = moved (gridsize w) (state w) delta).
Proof.
  unfold exec. rewrite step_unfold.
  destruct (effective_action (stochasticity w) action (module_random w))
    as [[a|e] g].
  2: { exists (state w), g. split; [now destruct w|now left]. }
  destruct (ACTIONS !! a) as [delta|] eqn:Ha.
  2: { exists (state w), g. split; [now destruct w|now left]. }
  exists (moved (gridsize w) (state w) delta), g. split.
  - cbn zeta. now destruct (run observe (after_step delta g w)).
  - right. now exists a, delta.
Qed.

Lemma step_keeps_configured (action : Z) (w : World) :
  configured w -> configured (exec (step action) w).
Proof.
  intros Hc. destruct (step_exec action w) as (st & g & -> & Hst).
  destruct Hc as (H1 & H2 & H3 & H4 & H5 & H6).
  repeat split; try assumption; try apply H1; try apply H2.
  cbn [gridsize state set_state set_module_random].
  destruct Hst as [-> | (a & delta & _ & ->)]; [assumption|].
  now apply moved_in_grid.
Qed.

Lemma walk_exec (actions : list Z) (w : World) :
  exists st g, walk actions w = set_state st (set_module_random g w).
Proof.
  revert w. induction actions as [|a actions IH]; intros w.
  - exists (state w), (module_random w). now destruct w.
  - cbn [walk fold_left]. fold (walk actions (exec (step a) w)).
    destruct (IH (exec (step a) w)) as (st & g & ->).
    destruct (step_exec a w) as (st1 & g1 & -> & _).
    exists st, g. reflexivity.
Qed.

Lemma walk_keeps_configured (actions : list Z) (w : World) :
  configured w -> configured (walk actions w).
Proof.
  revert w. induction actions as [|a actions IH]; intros w Hc; [exact Hc|].
  cbn [walk fold_left]. apply IH. now apply step_keeps_configured.
Qed.

Lemma table_unit_move (a : Z) (delta : Z * Z) :
  ACTIONS !! a = Some delta -> Z.abs delta.1 + Z.abs delta.2 = 1.
Proof.
  rewrite ACTIONS_lookup. unfold action_delta.
  repeat (destruct (_ =? _); [intros [= <-]; reflexivity|]).
  discriminate.
Qed.

(** X1.  Whatever the action and the world, and whether it returns or
    raises, [step] changes nothing but the position and the module-level
    generator: the configuration, the grid, the goal, the start, the list of
    obstacles, the cached image and the seeded generator of the object are
    as before. *)
Theorem X1_step_changes_position_only (action : Z) (w : World) :
  let w' := exec (step action) w in
  gridsize w' = gridsize w /\ rho w' = rho w /\
  stochasticity w' = stochasticity w /\
  img_observation w' = img_observation w /\
  art w' = art w /\ art_img w' = art_img w /\
  goal_state w' = goal_state w /\ start_state w' = start_state w /\
  obstacle_states w' = obstacle_states w /\
  np_random w' = np_random w.
Proof.
  cbn zeta. destruct (step_exec action w) as (st & g & -> & _).
  repeat split.
Qed.

(** X2.  From a configured world, any sequence of calls to [step], with
    any actions, leaves a configured world: the agent is on the grid after
    every one of them, and the grid, the goal and the start are those
    configured. *)
Theorem X2_walk_stays_on_grid (actions : list Z) (w : World) :
  configured w ->
  let w' := walk actions w in
  configured w' /\
  0 <= (state w').1 < gridsize w /\ 0 <= (state w').2 < gridsize w /\
  art w' = art w /\ goal_state w' = goal_state w /\
  start_state w' = start_state w.
Proof.
  intros Hc w'.
  pose proof (walk_keeps_configured actions w Hc) as Hc'. fold w' in Hc'.
  destruct (walk_exec actions w) as (st & g & E). fold w' in E.
  split; [exact Hc'|].
  destruct Hc' as (_ & _ & _ & _ & _ & Hin). apply in_grid_spec in Hin.
  rewrite E in *. cbn in *. repeat split; lia.
Qed.

Lemma X2_witness :
  configured grid3 /\
  configured (walk [0; 7; 3; 3; 2; 2; 1] grid3) /\
  0 <= (state (walk [0; 7; 3; 3; 2; 2; 1] grid3)).1 < gridsize grid3.
Proof.
  assert (Hc : configured grid3) by by_computation.
  split; [exact Hc|].
  destruct (X2_walk_stays_on_grid [0; 7; 3; 3; 2; 2; 1] grid3 Hc)
    as (Hc' & Hrow & _).
  split; [exact Hc'|exact Hrow].
Defined.

(** X3.  A call to [step] moves the agent by at most one cell: the row or
    the column changes by one, or the position stays, for every action and
    every world, also when the call raises. *)
Theorem X3_step_moves_one_cell_at_most (action : Z) (w : World) :
  let p := state w in
  let p' := state (exec (step action) w) in
  Z.abs (p'.1 - p.1) + Z.abs (p'.2 - p.2) <= 1.
Proof.
  cbn zeta. destruct (step_exec action w) as (st & g & -> & Hst).
  cbn [state set_state].
  destruct Hst as [-> | (a & delta & Ha & ->)]; [lia|].
  pose proof (table_unit_move a delta Ha) as Hd.
  unfold moved. cbn zeta.
  destruct (in_grid _ _); cbn [fst snd]; lia.
Qed.

(** X4.  [make_game] stores any stochasticity; one outside [[0, 1]] makes
    every later [step] raise [ValueError], whatever the action, and the
    call changes nothing: neither the position nor a generator. *)
Theorem X4_step_refuses_bad_stochasticity (action : Z) (w : World) :
  (stochasticity w < 0)%Q \/ (1 < stochasticity w)%Q ->
  step action w = (Raise ValueError, w).
Proof.
  intros Hp.
  rewrite (step_draw_raise action w ValueError (module_random w)).
  - now destruct w.
  - now apply effective_action_raise.
Qed.

Lemma X4_witness :
  let w := exec (make_game 3 0 2 false)
                (unset (constant_tape 1) (constant_tape 0)) in
  (1 < stochasticity w)%Q /\ step 0 w = (Raise ValueError, w).
Proof.
  intros w.
  assert (Hp : (1 < stochasticity w)%Q) by reflexivity.
  split; [exact Hp|].
  apply (X4_step_refuses_bad_stochasticity 0 w). right. exact Hp.
Defined.

(** X5.  With stochasticity 1 the action passed to [step] is ignored: two
    calls with different actions, even with one outside the table, return
    the same and leave the same world. *)
Theorem X5_full_stochasticity_ignores_the_action (a1 a2 : Z) (w : World) :
  (stochasticity w == 1)%Q -> step a1 w = step a2 w.
Proof.
  intros Hp. rewrite !step_unfold.
  assert (He : forall a,
    effective_action (stochasticity w) a (module_random w)
    = randint 0 4 (advance (module_random w))).
  { intros a. unfold effective_action.
    now rewrite (bind_ok _ _ _ _ _ (binomial1_one _ _ Hp)). }
  now rewrite !He.
Qed.

Lemma X5_witness :
  let w := exec (make_game 3 0 1 false)
                (unset (constant_tape 1) (constant_tape 5)) in
  (stochasticity w == 1)%Q /\ step 0 w = step 9 w /\
  state (exec (step 9) w) = (2, 1).
Proof.
  intros w.
  assert (Hp : (stochasticity w == 1)%Q) by reflexivity.
  split; [exact Hp|]. split.
  - apply (X5_full_stochasticity_ignores_the_action 0 9 w Hp).
  - by_computation.
Defined.

(** ** What a configuration establishes *)

(** X6.  After a successful [make_game] the agent is at the start, the
    bottom-right cell; the goal is in row 0; [obstacle_states] lists exactly
    the obstacle cells of the grid, all of them strictly between the first
    and the last row; so neither the start nor the goal is an obstacle
    position, and the start is not the goal.  The module-level generator is
    not touched. *)
Theorem X6_make_game_postcondition (n : Z) (r s : Q) (io : bool) (w : World) :
  2 <= n -> (0 <= r)%Q -> (r <= 1)%Q ->
  let w' := exec (make_game n r s io) w in
  state w' = (n - 1, n - 1) /\ start_state w' = (n - 1, n - 1) /\
  (goal_state w').1 = 0 /\ 0 <= (goal_state w').2 < n /\
  (forall i j, (i, j) ∈ obstacle_states w' <->
     0 <= i < n /\ 0 <= j < n /\ getitem2 (art w') i j = Ok OBSTACLE_CHAR) /\
  (forall i j, (i, j) ∈ obstacle_states w' -> 0 < i < n - 1) /\
  (start_state w' ∉ obstacle_states w') /\
  (goal_state w' ∉ obstacle_states w') /\
  goal_state w' <> start_state w' /\
  module_random w' = module_random w.
Proof.
  intros Hn H0 H1 w'.
  destruct (make_game_ok n r s io w Hn (or_intror (conj H0 H1)))
    as (w1 & alpha & E & _ & _ & _ & _ & Hstart & Hstate & Hgoal & Hg & _
        & Hmod & Hc).
  assert (Ew : w' = w1) by (unfold w', exec; now rewrite E). rewrite Ew.
  pose proof (generated_shaped _ _ _ Hg) as Hs.
  pose proof Hg as (_ & _ & _ & Ha & _).
  destruct Hc as (_ & _ & _ & Hobs & _).
  assert (Hmem : forall i j, (i, j) ∈ obstacle_states w1 <->
            0 <= i < n /\ 0 <= j < n /\
            getitem2 (art w1) i j = Ok OBSTACLE_CHAR).
  { intros i j. rewrite Hobs. now apply elem_of_argwhere. }
  assert (Hint : forall i j, (i, j) ∈ obstacle_states w1 -> 0 < i < n - 1).
  { intros i j Hin. apply Hmem in Hin. destruct Hin as (Hi & Hj & Ec).
    now apply (generated_border_free n alpha (art w1) i j). }
  rewrite Hstart, Hstate, Hgoal. cbn [fst snd].
  split; [reflexivity|]. split; [reflexivity|]. split; [reflexivity|].
  split; [exact Ha|]. split; [exact Hmem|]. split; [exact Hint|].
  split; [|split; [|split]].
  - intros Hin. apply Hint in Hin. lia.
  - intros Hin. apply Hint in Hin. lia.
  - intros [= ]. lia.
  - exact Hmod.
Qed.

Lemma X6_witness :
  2 <= 4 /\ (0 <= 1 # 2)%Q /\ (1 # 2 <= 1)%Q /\
  let w' := exec (make_game 4 (1 # 2) 0 false)
                 (unset (constant_tape 7) (constant_tape 0)) in
  state w' = (3, 3) /\ (goal_state w').1 = 0 /\
  (start_state w' ∉ obstacle_states w').
Proof.
  assert (Hq0 : (0 <= 1 # 2)%Q) by (vm_compute; discriminate).
  assert (Hq1 : (1 # 2 <= 1)%Q) by (vm_compute; discriminate).
  split; [lia|]. split; [exact Hq0|]. split; [exact Hq1|].
  destruct (X6_make_game_postcondition 4 (1 # 2) 0 false
              (unset (constant_tape 7) (constant_tape 0))
              ltac:(lia) Hq0 Hq1)
    as (Hst & _ & Hg & _ & _ & _ & Hno & _).
  cbn zeta. split; [exact Hst|]. split; [exact Hg|exact Hno].
Defined.

(** X7.  The image cached by a successful [make_game] has the shape of the
    grid and shows every cell in its colour: the goal green (0, 1, 0), an
    obstacle blue (0, 0, 1), an empty cell black (0, 0, 0); the start marker
    is drawn as an empty cell, so the bottom-right pixel is black. *)
Theorem X7_cached_image_colors (n : Z) (r s : Q) (io : bool) (w : World) :
  2 <= n -> (0 <= r)%Q -> (r <= 1)%Q ->
  let w' := exec (make_game n r s io) w in
  shaped n (art_img w') /\
  (forall i j, 0 <= i < n -> 0 <= j < n ->
     exists ch,
       getitem2 (art w') i j = Ok ch /\
       getitem2 (art_img w') i j
       = Ok (if decide (ch = GOAL_CHAR) then (0, 1, 0)
             else if decide (ch = OBSTACLE_CHAR) then (0, 0, 1)
             else (0, 0, 0))) /\
  getitem2 (art_img w') (goal_state w').1 (goal_state w').2 = Ok (0, 1, 0) /\
  getitem2 (art_img w') (n - 1) (n - 1) = Ok (0, 0, 0).
Proof.
  intros Hn H0 H1 w'.
  destruct (make_game_ok n r s io w Hn (or_intror (conj H0 H1)))
    as (w1 & alpha & E & _ & _ & _ & _ & _ & _ & Hgoal & Hg & Himg & _ & Hc).
  assert (Ew : w' = w1) by (unfold w', exec; now rewrite E). rewrite Ew.
  destruct Himg as (Hs & Hpix).
  pose proof Hg as (_ & _ & _ & Ha & _).
  split; [exact Hs|]. split; [exact Hpix|]. split.
  - rewrite Hgoal. cbn [fst snd].
    destruct (Hpix 0 alpha ltac:(lia) Ha) as (ch & Ec & Ep).
    assert (Ec' : getitem2 (art w1) 0 alpha = Ok GOAL_CHAR).
    { apply (generated_goal_iff n alpha (art w1) 0 alpha Hn Hg); [lia|exact Ha|].
      now split. }
    rewrite Ec' in Ec. injection Ec as <-. exact Ep.
  - destruct (Hpix (n - 1) (n - 1) ltac:(lia) ltac:(lia)) as (ch & Ec & Ep).
    rewrite (generated_start n alpha (art w1) Hn Hg) in Ec.
    injection Ec as <-. exact Ep.
Qed.

Lemma X7_witness :
  2 <= 3 /\ (0 <= 1)%Q /\ (1 <= 1)%Q /\
  getitem2 (art_img grid3_obstacles) 2 2 = Ok (0, 0, 0) /\
  getitem2 (art_img grid3_obstacles) 0 1 = Ok (0, 1, 0).
Proof.
  assert (Hq0 : (0 <= 1)%Q) by (vm_compute; discriminate).
  assert (Hq1 : (1 <= 1)%Q) by (vm_compute; discriminate).
  split; [lia|]. split; [exact Hq0|]. split; [exact Hq1|].
  destruct (X7_cached_image_colors 3 1 0 true
              (unset (constant_tape 1) (constant_tape 0))
              ltac:(lia) Hq0 Hq1) as (_ & _ & Hgoal & Hstart).
  split; [exact Hstart|exact Hgoal].
Defined.

(** ** Reset and the observations *)

(** X8.  In a configured world [reset] returns, puts the agent back on the
    start and changes nothing else.  It returns the same observation after
    any sequence of steps as before them, and calling it twice in a row
    gives the same observation and the same world as calling it once. *)
Theorem X8_reset_returns_to_start (actions : list Z) (w : World) :
  configured w ->
  (exists obs, reset w = (Ok obs, set_state (start_state w) w)) /\
  run reset (walk actions w) = run reset w /\
  state (exec reset (walk actions w)) = start_state w /\
  reset (exec reset w) = (run reset w, exec reset w).
Proof.
  intros Hc.
  destruct (reset_ok w Hc) as (E & Hc1).
  pose proof (walk_keeps_configured actions w Hc) as Hcw.
  destruct (reset_ok _ Hcw) as (Ew & _).
  destruct (reset_ok _ Hc1) as (E1 & _).
  split; [eexists; exact E|].
  destruct (walk_exec actions w) as (st & g & Hw).
  unfold run, exec. rewrite E, Ew. cbn [fst snd].
  split; [|split].
  - rewrite Hw. reflexivity.
  - rewrite Hw. reflexivity.
  - rewrite E1. reflexivity.
Qed.

Lemma X8_witness :
  configured grid3 /\
  run reset (walk [1; 0; 0; 3] grid3)
    = Ok (OneHot [0; 0; 0; 0; 0; 0; 0; 0; 1]) /\
  state (exec reset (walk [1; 0; 0; 3] grid3)) = (2, 2).
Proof.
  assert (Hc : configured grid3) by by_computation.
  split; [exact Hc|].
  destruct (X8_reset_returns_to_start [1; 0; 0; 3] grid3 Hc)
    as (_ & Hobs & Hst & _).
  split.
  - rewrite Hobs. by_computation.
  - rewrite Hst. by_computation.
Defined.

(** X9.  The one-hot observation identifies the position: on grids of the
    same size, two positions on the grid with the same one-hot observation
    are the same position. *)
Theorem X9_one_hot_identifies_position (w1 w2 : World) :
  gridsize w1 = gridsize w2 ->
  in_grid (gridsize w1) (state w1) = true ->
  in_grid (gridsize w2) (state w2) = true ->
  run state_to_oh w1 = run state_to_oh w2 ->
  state w1 = state w2.
Proof.
  intros Hn H1 H2 Heq.
  unfold run in Heq.
  rewrite (state_to_oh_ok w1 H1), (state_to_oh_ok w2 H2) in Heq.
  cbn [fst] in Heq. injection Heq as Heq. rewrite <- Hn in *.
  set (n := gridsize w1) in *.
  apply in_grid_spec in H1, H2.
  destruct (state w1) as [i1 j1], (state w2) as [i2 j2]. cbn [fst snd] in *.
  pose proof (flat_index_bound n i1 j1 ltac:(lia) ltac:(lia)) as B1.
  pose proof (one_hot_lookup n (i1, j1) (i1 * n + j1)
                ltac:(cbn; lia) ltac:(cbn; lia) B1) as L1.
  pose proof (one_hot_lookup n (i2, j2) (i1 * n + j1)
                ltac:(cbn; lia) ltac:(cbn; lia) B1) as L2.
  cbn [fst snd] in L1, L2. rewrite Z.eqb_refl in L1.
  rewrite Heq, L2 in L1.
  destruct (i1 * n + j1 =? i2 * n + j2) eqn:E; [|discriminate].
  apply Z.eqb_eq in E.
  destruct (flat_index_inj n i1 j1 i2 j2 ltac:(lia) ltac:(lia) E) as [-> ->].
  reflexivity.
Qed.

Lemma X9_witness :
  gridsize grid3 = gridsize (walk [1; 3] grid3) /\
  in_grid (gridsize grid3) (state grid3) = true /\
  in_grid (gridsize (walk [1; 3] grid3)) (state (walk [1; 3] grid3)) = true /\
  run state_to_oh grid3 = run state_to_oh (walk [1; 3] grid3) /\
  state grid3 = state (walk [1; 3] grid3).
Proof.
  assert (Hn : gridsize grid3 = gridsize (walk [1; 3] grid3)) by reflexivity.
  assert (H1 : in_grid (gridsize grid3) (state grid3) = true) by reflexivity.
  assert (H2 : in_grid (gridsize (walk [1; 3] grid3))
                 (state (walk [1; 3] grid3)) = true) by (vm_compute; reflexivity).
  assert (He : run state_to_oh grid3 = run state_to_oh (walk [1; 3] grid3))
    by (vm_compute; reflexivity).
  split; [exact Hn|]. split; [exact H1|]. split; [exact H2|].
  split; [exact He|].
  exact (X9_one_hot_identifies_position grid3 (walk [1; 3] grid3) Hn H1 H2 He).
Defined.

Lemma cell_color_not_player (ch : ascii) : cell_color ch <> PLAYER_COLOR.
Proof.
  unfold cell_color, PLAYER_COLOR.
  destruct (decide (ch = GOAL_CHAR)); [discriminate|].
  destruct (decide (ch = OBSTACLE_CHAR)); discriminate.
Qed.

(** X10.  In a game set up by [make_game], after any sequence of steps, the
    image observation is red exactly at the agent's position: the cached
    image holds no red pixel, and no earlier position leaves a trace. *)
Theorem X10_image_red_at_position_only (n : Z) (r s : Q) (io : bool)
    (actions : list Z) (w0 : World) :
  2 <= n -> (0 <= r)%Q -> (r <= 1)%Q ->
  let w := walk actions (exec (make_game n r s io) w0) in
  exists img,
    state_to_img w = (Ok img, w) /\
    forall i j, 0 <= i < n -> 0 <= j < n ->
      (getitem2 img i j = Ok (1, 0, 0) <-> (i, j) = state w).
Proof.
  intros Hn H0 H1 w.
  destruct (make_game_ok n r s io w0 Hn (or_intror (conj H0 H1)))
    as (w1 & alpha & E & Hsize & _ & _ & _ & _ & _ & _ & _ & Himg & _ & Hc).
  assert (Ew : exec (make_game n r s io) w0 = w1)
    by (unfold exec; now rewrite E).
  unfold w. rewrite Ew. clear w Ew.
  set (w := walk actions w1).
  pose proof (walk_keeps_configured actions w1 Hc) as Hcw. fold w in Hcw.
  destruct (walk_exec actions w1) as (st & g & Hw). fold w in Hw.
  assert (Hgs : gridsize w = n) by (now rewrite Hw).
  assert (Hai : art_img w = art_img w1) by (now rewrite Hw).
  destruct Hcw as (_ & Hs & _ & _ & _ & Hin).
  exists (player_image (art_img w) (state w)).
  split; [now apply state_to_img_ok|].
  apply in_grid_spec in Hin. rewrite Hgs in Hin, Hs.
  destruct (player_image_spec n (art_img w) (state w) Hs
              ltac:(lia) ltac:(lia)) as (_ & Hp & Hothers).
  intros i j Hi Hj. split.
  - intros Hred.
    destruct (decide ((i, j) = state w)) as [Heq|Hne]; [exact Heq|].
    exfalso. rewrite (Hothers i j Hi Hj Hne), Hai in Hred.
    destruct Himg as (_ & Hpix).
    destruct (Hpix i j Hi Hj) as (ch & _ & Ep).
    rewrite Ep in Hred. injection Hred as Hred.
    now apply (cell_color_not_player ch).
  - intros Heq. rewrite <- Heq in Hp |- *. exact Hp.
Qed.

Lemma X10_witness :
  2 <= 3 /\ (0 <= 1)%Q /\ (1 <= 1)%Q /\
  exists img,
    state_to_img (walk [0; 1] grid3_obstacles)
      = (Ok img, walk [0; 1] grid3_obstacles) /\
    getitem2 img 1 1 = Ok (1, 0, 0) /\
    getitem2 img 1 2 <> Ok (1, 0, 0).
Proof.
  assert (Hq0 : (0 <= 1)%Q) by (vm_compute; discriminate).
  assert (Hq1 : (1 <= 1)%Q) by (vm_compute; discriminate).
  split; [lia|]. split; [exact Hq0|]. split; [exact Hq1|].
  destruct (X10_image_red_at_position_only 3 1 0 true [0; 1]
              (unset (constant_tape 1) (constant_tape 0))
              ltac:(lia) Hq0 Hq1) as (img & Ei & Hred).
  exists img. split; [exact Ei|]. split.
  - apply (Hred 1 1); [lia|lia|]. vm_compute. reflexivity.
  - intros Hr. apply (Hred 1 2) in Hr; [|lia|lia].
    vm_compute in Hr. discriminate.
Defined.

(** ** The whole of a configuration *)

(** A loop whose body leaves the state alone leaves it alone. *)
Lemma for_each_frame {S A B} (xs : list A) (body : A -> B -> St S B) :
  (forall x acc s, (body x acc s).2 = s) ->
  forall acc s, (for_each xs acc body s).2 = s.
Proof.
  intros Hbody. induction xs as [|x xs IH]; intros acc s; [reflexivity|].
  cbn [for_each]. unfold bind.
  pose proof (Hbody x acc s) as F.
  destruct (body x acc s) as [[acc'|e] s']; cbn in F; subst s';
    [apply IH|reflexivity].
Qed.

Lemma get_art_img_frame (w : World) : (get_art_img w).2 = w.
Proof.
  unfold get_art_img. rewrite bind_gets. cbn beta.
  destruct (zeros2 (0, 0, 0) (gridsize w) (gridsize w)) as [img|e];
    [rewrite bind_lift_ok|reflexivity].
  apply for_each_frame. intros i acc s.
  apply for_each_frame. intros j acc' s'.
  rewrite bind_gets. cbn beta.
  destruct (getitem2 (art s') i j) as [ch|e];
    [rewrite bind_lift_ok|reflexivity].
  destruct (if decide (ch = PLAYER_CHAR)
            then dict_getitem FG_COLORS EMPTY_CHAR
            else dict_getitem FG_COLORS ch) as [c|e];
    [rewrite bind_lift_ok|reflexivity].
  reflexivity.
Qed.

(** [make_game], by what its calls return. *)
Lemma make_game_unfold (n : Z) (r s : Q) (io : bool) (w : World) :
  make_game n r s io w =
  match build_asci_art n r
          (set_stochasticity s (set_rho r (set_gridsize n w))) with
  | (Raise e, w1) => (Raise e, w1)
  | (Ok flat, w1) =>
    match reshape flat n n with
    | Raise e => (Raise e, w1)
    | Ok a =>
      let w2 := set_start_state (n - 1, n - 1)
                  (set_img_observation io (set_art a w1)) in
      match first_item (argwhere a GOAL_CHAR) with
      | Raise e => (Raise e, w2)
      | Ok goal =>
        let w3 := set_obstacle_states (argwhere a OBSTACLE_CHAR)
                    (set_state (n - 1, n - 1) (set_goal_state goal w2)) in
        match run get_art_img w3 with
        | Raise e => (Raise e, w3)
        | Ok img => (Ok tt, set_art_img img w3)
        end
      end
    end
  end.
Proof.
  unfold make_game. rewrite bind_modify. cbn beta.
  rewrite bind_modify. cbn beta. rewrite bind_modify. cbn beta.
  unfold bind at 1.
  destruct (build_asci_art n r _) as [[flat|e] w1]; [|reflexivity].
  destruct (reshape flat n n) as [a|e];
    [rewrite bind_lift_ok|reflexivity].
  cbn beta. rewrite bind_modify. cbn beta. rewrite bind_modify. cbn beta.
  rewrite bind_modify. cbn beta. rewrite bind_gets. cbn beta.
  cbn [art set_art set_img_observation set_start_state].
  destruct (first_item (argwhere a GOAL_CHAR)) as [goal|e];
    [rewrite bind_lift_ok|reflexivity].
  cbn beta. rewrite bind_modify. cbn beta. rewrite bind_gets. cbn beta.
  rewrite bind_modify. cbn beta. rewrite bind_gets. cbn beta.
  rewrite bind_modify. cbn beta zeta.
  set (w3 := set_obstacle_states _ _).
  pose proof (get_art_img_frame w3) as F. unfold run, bind.
  destruct (get_art_img w3) as [[img|e] w4]; cbn in F; subst w4; reflexivity.
Qed.

(** ** The two extreme densities *)

Lemma obstacle_row_loop_zero (n : Z) (r : Q) (w : World) :
  (r == 0)%Q ->
  exists g,
    for_each (range n) (replicate (Z.to_nat n) " "%char)
      (fun col_idx row =>
         b <- self_np_random (binomial1 r) ;;
         if negb (b =? 0)
         then lift (list_setitem row col_idx OBSTACLE_CHAR)
         else ret row) w
    = (Ok (replicate (Z.to_nat n) EMPTY_CHAR), set_np_random g w).
Proof.
  intros Hr.
  pose (I := fun (_ : nat) (row : list ascii) (s : World) =>
               row = replicate (Z.to_nat n) EMPTY_CHAR /\
               exists g, s = set_np_random g w).
  edestruct (for_each_inv I (range n)) as (row & s & E & (-> & g & ->)).
  3: { exists g. exact E. }
  - intros k x acc s _ (-> & g & ->).
    unfold bind at 1, self_np_random.
    rewrite (binomial1_zero r _ Hr). cbn [Z.eqb negb].
    eexists _, _. split; [reflexivity|].
    split; [reflexivity|]. eexists. reflexivity.
  - split; [reflexivity|]. exists (np_random w). now destruct w.
Qed.

Lemma obstacle_row_loop_one (n : Z) (r : Q) (w : World) :
  (r == 1)%Q ->
  exists row g,
    for_each (range n) (replicate (Z.to_nat n) " "%char)
      (fun col_idx row =>
         b <- self_np_random (binomial1 r) ;;
         if negb (b =? 0)
         then lift (list_setitem row col_idx OBSTACLE_CHAR)
         else ret row) w
    = (Ok row, set_np_random g w) /\
    length row = Z.to_nat n /\
    forall j, (j < Z.to_nat n)%nat -> row !! j = Some OBSTACLE_CHAR.
Proof.
  intros Hr.
  pose (I := fun (k : nat) (row : list ascii) (s : World) =>
               (length row = Z.to_nat n /\
                forall j, (j < k)%nat -> row !! j = Some OBSTACLE_CHAR) /\
               exists g, s = set_np_random g w).
  edestruct (for_each_inv I (range n))
    as (row & s & E & ((Hlen & Hall) & g & ->)).
  3: { exists row, g. split; [exact E|]. split; [exact Hlen|].
       intros j Hj. apply Hall. rewrite range_length. exact Hj. }
  - intros k x acc s Hx ((Hlen & Hall) & g & ->).
    apply range_lookup in Hx. destruct Hx as [-> Hk].
    unfold bind at 1, self_np_random.
    rewrite (binomial1_one r _ Hr). cbn [Z.eqb negb].
    unfold lift. rewrite list_setitem_in by lia. rewrite Nat2Z.id.
    eexists _, _. split; [reflexivity|].
    split; [|eexists; reflexivity].
    split; [now rewrite length_insert|].
    intros j Hj. destruct (decide (j = k)) as [->|Hne].
    + apply list_lookup_insert_eq. lia.
    + rewrite list_lookup_insert_ne by congruence. apply Hall. lia.
  - split.
    + split; [apply length_replicate|]. intros j Hj. lia.
    + exists (np_random w). now destruct w.
Qed.

(** If every interior row comes out filled with [c], so does the interior
    of the grid. *)
Lemma build_asci_art_interior (c : ascii) (n : Z) (r : Q) (w : World) :
  2 <= n ->
  (forall s, exists row g,
     for_each (range n) (replicate (Z.to_nat n) " "%char)
       (fun col_idx row =>
          b <- self_np_random (binomial1 r) ;;
          if negb (b =? 0)
          then lift (list_setitem row col_idx OBSTACLE_CHAR)
          else ret row) s
     = (Ok row, set_np_random g s) /\
     length row = Z.to_nat n /\
     forall j, (j < Z.to_nat n)%nat -> row !! j = Some c) ->
  exists flat w',
    build_asci_art n r w = (Ok flat, w') /\
    forall i j, 0 < i < n - 1 -> 0 <= j < n ->
      flat !! Z.to_nat (i * n + j) = Some c.
Proof.
  intros Hn Hloop. unfold build_asci_art.
  destruct (randint_ok 0 n (np_random w) ltac:(lia)) as (alpha & Ea & Ha).
  unfold bind at 1, self_np_random at 1. rewrite Ea.
  unfold bind at 1, lift at 1.
  rewrite list_setitem_in by (rewrite length_replicate; lia).
  unfold bind at 1, lift at 1.
  rewrite list_setitem_last by (rewrite length_replicate; lia).
  rewrite length_replicate.
  set (first_row := <[Z.to_nat alpha := GOAL_CHAR]> _).
  set (last_row := <[Z.to_nat (Z.of_nat (Z.to_nat n) - 1) := PLAYER_CHAR]> _).
  pose (full := fun row : list ascii =>
          length row = Z.to_nat n /\
          forall j, (j < Z.to_nat n)%nat -> row !! j = Some c).
  pose (I := fun (k : nat) (art : list (list ascii)) (s : World) =>
               exists mids, art = first_row :: mids /\ length mids = k /\
                            Forall full mids).
  edestruct (for_each_inv I (range (n - 2)))
    as (art & s & E & (mids & -> & Hlen & Hmids)).
  3: { unfold bind at 1. rewrite E. unfold ret.
       eexists _, _. split; [reflexivity|].
       intros i j Hi Hj.
       assert (Hall : Forall (fun row : list ascii => length row = Z.to_nat n)
                        ((first_row :: mids) ++ [last_row])).
       { apply Forall_app. split.
         - constructor.
           + unfold first_row. now rewrite length_insert, length_replicate.
           + eapply Forall_impl; [exact Hmids|]. now intros row [Hl _].
         - constructor; [|constructor]. unfold last_row.
           now rewrite length_insert, length_replicate. }
       replace (Z.to_nat (i * n + j))
         with (Z.to_nat i * Z.to_nat n + Z.to_nat j)%nat by nia.
       rewrite (lookup_concat_rows _ _ _ _ Hall) by lia.
       rewrite range_length in Hlen.
       destruct (Z.to_nat i) as [|i'] eqn:Ei; [lia|].
       cbn [app]. rewrite lookup_cons_ne_0 by lia. cbn [pred].
       rewrite lookup_app_l by lia.
       destruct (mids !! i') as [row|] eqn:Er.
       2: { apply lookup_ge_None in Er. lia. }
       simpl. rewrite Forall_forall in Hmids.
       destruct (Hmids row) as [_ Hrow].
       { apply list_elem_of_lookup. eauto. }
       apply Hrow. lia. }
  - intros k x acc s _ (mids & -> & Hlen & Hmids).
    destruct (Hloop s) as (row & g & Erow & Hrl & Hrc).
    unfold bind at 1. rewrite Erow. unfold ret.
    eexists _, _. split; [reflexivity|].
    exists (mids ++ [row]). split; [reflexivity|].
    split; [rewrite length_app; cbn; lia|].
    apply Forall_app. split; [exact Hmids|].
    constructor; [|constructor]. split; assumption.
  - exists []. repeat split. constructor.
Qed.

(** The interior cells of the grid a successful [make_game] stores are
    those [build_asci_art] produced. *)
Lemma make_game_interior (c : ascii) (n : Z) (r s : Q) (io : bool) (w : World) :
  2 <= n ->
  (exists flat w',
     build_asci_art n r (set_stochasticity s (set_rho r (set_gridsize n w)))
       = (Ok flat, w') /\
     forall i j, 0 < i < n - 1 -> 0 <= j < n ->
       flat !! Z.to_nat (i * n + j) = Some c) ->
  run (make_game n r s io) w = Ok tt ->
  forall i j, 0 < i < n - 1 -> 0 <= j < n ->
    getitem2 (art (exec (make_game n r s io) w)) i j = Ok c.
Proof.
  intros Hn (flat & w1 & Eb & Hcells) Hrun i j Hi Hj.
  unfold run, exec in *. rewrite make_game_unfold, Eb in *.
  unfold reshape in *.
  destruct ((0 <=? n) && (0 <=? n) && (Z.of_nat (length flat) =? n * n));
    [|discriminate].
  cbn zeta in *.
  destruct (first_item (argwhere (mk_ndarray2 flat n n) GOAL_CHAR));
    [|discriminate].
  destruct (run get_art_img _); [|discriminate].
  cbn [snd art set_art_img set_obstacle_states set_state set_goal_state
       set_start_state set_img_observation set_art].
  rewrite getitem2_in by (cbn; lia). cbn [nd_data nd_cols].
  now rewrite (Hcells i j Hi Hj).
Qed.

Lemma make_game_obstacle_cells (n : Z) (r s : Q) (io : bool) (w : World) :
  2 <= n -> (0 <= r)%Q -> (r <= 1)%Q ->
  let w' := exec (make_game n r s io) w in
  run (make_game n r s io) w = Ok tt /\ configured w' /\
  forall i j, (i, j) ∈ obstacle_states w' <->
    0 < i < n - 1 /\ 0 <= j < n /\
    getitem2 (art w') i j = Ok OBSTACLE_CHAR.
Proof.
  intros Hn H0 H1 w'.
  destruct (make_game_ok n r s io w Hn (or_intror (conj H0 H1)))
    as (w1 & alpha & E & _ & _ & _ & _ & _ & _ & _ & Hg & _ & _ & Hc).
  assert (Ew : w' = w1) by (unfold w', exec; now rewrite E). rewrite Ew.
  split; [unfold run; now rewrite E|]. split; [exact Hc|].
  pose proof (generated_shaped _ _ _ Hg) as Hs.
  destruct Hc as (_ & _ & _ & Hobs & _).
  intros i j. rewrite Hobs, (elem_of_argwhere n) by exact Hs. split.
  - intros (Hi & Hj & Ec). split; [|split; assumption].
    now apply (generated_border_free n alpha (art w1) i j).
  - intros (Hi & Hj & Ec). repeat split; try assumption; lia.
Qed.

(** X11.  With density 0 the grid has no obstacle: [obstacle_states] is
    empty, and every step that returns, after any sequence of steps, has
    constraint cost 0. *)
Theorem X11_density_zero_no_obstacle (n : Z) (r s : Q) (io : bool)
    (w0 : World) (actions : list Z) (action : Z) :
  2 <= n -> (r == 0)%Q ->
  let w := exec (make_game n r s io) w0 in
  obstacle_states w = [] /\
  forall obs reward done info w',
    step action (walk actions w) = (Ok (obs, reward, done, info), w') ->
    constraint_costs info = [0].
Proof.
  intros Hn Hr w.
  assert (H0 : (0 <= r)%Q) by (rewrite Hr; apply Qle_refl).
  assert (H1 : (r <= 1)%Q) by (rewrite Hr; easy).
  destruct (make_game_obstacle_cells n r s io w0 Hn H0 H1)
    as (Hrun & Hc & Hmem). fold w in Hc, Hmem.
  assert (Hcells : forall i j, 0 < i < n - 1 -> 0 <= j < n ->
            getitem2 (art w) i j = Ok EMPTY_CHAR).
  { apply make_game_interior; [exact Hn| |exact Hrun].
    apply build_asci_art_interior; [exact Hn|].
    intros s1. destruct (obstacle_row_loop_zero n r s1 Hr) as (g & E).
    eexists _, g. split; [exact E|].
    split; [apply length_replicate|].
    intros j Hj. now apply lookup_replicate_2. }
  assert (Hnil : obstacle_states w = []).
  { destruct (obstacle_states w) as [|[i j] l] eqn:El; [reflexivity|].
    assert (Hin : (i, j) ∈ (i, j) :: l) by left.
    apply Hmem in Hin. destruct Hin as (Hi & Hj & Ec).
    rewrite (Hcells i j Hi Hj) in Ec. discriminate. }
  split; [exact Hnil|].
  intros obs reward done info w' Hs.
  pose proof (walk_keeps_configured actions w Hc) as Hcw.
  destruct (step_inv action _ _ w' Hcw Hs) as (a & g & delta & _ & _ & Ew & E).
  injection E as _ _ _ ->.
  assert (Hobs : obstacle_states w' = []).
  { rewrite Ew. destruct (walk_exec actions w) as (st & g' & ->).
    exact Hnil. }
  unfold outcome. rewrite Hobs.
  now destruct (array_eq_all (state w') (goal_state w')).
Qed.

Lemma X11_witness :
  2 <= 3 /\ (0 == 0)%Q /\ obstacle_states grid3 = [] /\
  exists obs reward done info w',
    step 0 (walk [1] grid3) = (Ok (obs, reward, done, info), w') /\
    constraint_costs info = [0].
Proof.
  assert (Hq : (0 == 0)%Q) by reflexivity.
  split; [lia|]. split; [exact Hq|].
  destruct (X11_density_zero_no_obstacle 3 0 0 false
              (unset (constant_tape 1) (constant_tape 0)) [1] 0
              ltac:(lia) Hq) as (Hnil & Hcost).
  unfold grid3. split; [exact Hnil|].
  destruct (step 0 (walk [1] _)) as [[[[[obs rw] d] i]|e] w'] eqn:E;
    [|vm_compute in E; discriminate].
  exists obs, rw, d, i, w'. split; [reflexivity|].
  exact (Hcost obs rw d i w' eq_refl).
Defined.

(** X12.  With density 1 every cell strictly between the first and the
    last row is an obstacle: [obstacle_states] holds exactly the positions
    of those rows. *)
Theorem X12_density_one_full_interior (n : Z) (r s : Q) (io : bool)
    (w0 : World) :
  2 <= n -> (r == 1)%Q ->
  let w := exec (make_game n r s io) w0 in
  forall i j, (i, j) ∈ obstacle_states w <-> 0 < i < n - 1 /\ 0 <= j < n.
Proof.
  intros Hn Hr w.
  assert (H0 : (0 <= r)%Q) by (rewrite Hr; easy).
  assert (H1 : (r <= 1)%Q) by (rewrite Hr; apply Qle_refl).
  destruct (make_game_obstacle_cells n r s io w0 Hn H0 H1)
    as (Hrun & Hc & Hmem). fold w in Hc, Hmem.
  assert (Hcells : forall i j, 0 < i < n - 1 -> 0 <= j < n ->
            getitem2 (art w) i j = Ok OBSTACLE_CHAR).
  { apply make_game_interior; [exact Hn| |exact Hrun].
    apply build_asci_art_interior; [exact Hn|].
    intros s1. exact (obstacle_row_loop_one n r s1 Hr). }
  intros i j. rewrite Hmem. split.
  - intros (Hi & Hj & _). now split.
  - intros (Hi & Hj). split; [exact Hi|]. split; [exact Hj|].
    now apply Hcells.
Qed.

Lemma X12_witness :
  2 <= 3 /\ (1 == 1)%Q /\
  ((1, 0) ∈ obstacle_states grid3_obstacles) /\
  ((2, 0) ∉ obstacle_states grid3_obstacles).
Proof.
  assert (Hq : (1 == 1)%Q) by reflexivity.
  split; [lia|]. split; [exact Hq|].
  pose proof (X12_density_one_full_interior 3 1 0 true
                (unset (constant_tape 1) (constant_tape 0))
                ltac:(lia) Hq) as Hmem.
  cbn zeta in Hmem. unfold grid3_obstacles.
  split.
  - apply Hmem. lia.
  - intros Hin. apply Hmem in Hin. lia.
Defined.

(** ** Construction *)

Lemma seed_run (seeding : Z -> RandomState * Z) (sd : Z) (w : World) :
  0 <= sd ->
  seed seeding sd w = (Ok [(seeding sd).2], set_np_random (seeding sd).1 w).
Proof.
  intros H. unfold seed. destruct (sd <? 0) eqn:E; [lia|].
  now destruct (seeding sd).
Qed.

Lemma seed_refused (seeding : Z -> RandomState * Z) (sd : Z) (w : World) :
  sd < 0 -> seed seeding sd w = (Raise GymError, w).
Proof.
  intros H. unfold seed. destruct (sd <? 0) eqn:E; [reflexivity|lia].
Qed.

(** X13.  The constructor never fails: whatever generator the seeding
    library returns for 42, [__init__] leaves a configured 32 by 32 game
    in one-hot mode, with density 3/10 and stochasticity 1/10, the agent at
    (31, 31) and the goal in row 0. *)
Theorem X13_init_succeeds (seeding : Z -> RandomState * Z) (w : World) :
  let w' := exec (init seeding) w in
  run (init seeding) w = Ok tt /\ configured w' /\
  gridsize w' = 32 /\ rho w' = 3 # 10 /\ stochasticity w' = 1 # 10 /\
  img_observation w' = false /\
  state w' = (31, 31) /\ (goal_state w').1 = 0 /\
  0 <= (goal_state w').2 < 32.
Proof.
  cbn zeta. unfold run, exec, init.
  rewrite (bind_ok _ _ _ _ _ (seed_run seeding 42 w ltac:(lia))).
  destruct (make_game_ok 32 (3 # 10) (1 # 10) false
              (set_np_random (seeding 42).1 w) ltac:(lia))
    as (w1 & alpha & E & Hsize & Hrho & Hsto & Hio & _ & Hstate & Hgoal & Hg
        & _ & _ & Hc).
  { right. split; vm_compute; discriminate. }
  rewrite E. cbn [fst snd].
  destruct Hg as (_ & _ & _ & Ha & _).
  rewrite Hgoal. cbn [fst snd].
  repeat split; try assumption; try apply Hc; lia.
Qed.

(** ** A way to the goal *)

Lemma walk_app (l1 l2 : list Z) (w : World) :
  walk (l1 ++ l2) w = walk l2 (walk l1 w).
Proof. unfold walk. apply fold_left_app. Qed.

Lemma walk_keeps_settings (actions : list Z) (w : World) :
  gridsize (walk actions w) = gridsize w /\
  stochasticity (walk actions w) = stochasticity w /\
  goal_state (walk actions w) = goal_state w.
Proof. destruct (walk_exec actions w) as (st & g & ->). repeat split. Qed.

(** Without stochasticity, repeating an action moves the agent in a
    straight line for as long as the line stays on the grid. *)
Lemma walk_straight (a : Z) (delta : Z * Z) (k : nat) (w : World) :
  ACTIONS !! a = Some delta ->
  configured w -> (stochasticity w == 0)%Q ->
  (forall m, 1 <= m <= Z.of_nat k ->
     in_grid (gridsize w)
       ((state w).1 + m * delta.1, (state w).2 + m * delta.2) = true) ->
  state (walk (replicate k a) w)
  = ((state w).1 + Z.of_nat k * delta.1, (state w).2 + Z.of_nat k * delta.2).
Proof.
  intros Ha. revert w. induction k as [|k IH]; intros w Hc Hz Hline.
  - cbn [replicate walk fold_left]. change (Z.of_nat 0) with 0.
    rewrite !Z.mul_0_l, !Z.add_0_r. now destruct (state w).
  - cbn [replicate walk fold_left].
    fold (walk (replicate k a) (exec (step a) w)).
    destruct (step_moves_by_table a w delta Hc Hz Ha) as (_ & Hst).
    assert (Hst1 : state (exec (step a) w)
                   = ((state w).1 + delta.1, (state w).2 + delta.2)).
    { rewrite Hst. unfold moved. cbn zeta.
      pose proof (Hline 1 ltac:(lia)) as H1.
      rewrite !Z.mul_1_l in H1. now rewrite H1. }
    destruct (step_exec a w) as (st & g & Ew & _).
    assert (Hgs : gridsize (exec (step a) w) = gridsize w) by (now rewrite Ew).
    assert (Hsto : stochasticity (exec (step a) w) = stochasticity w)
      by (now rewrite Ew).
    rewrite IH.
    + rewrite Hst1. cbn [fst snd]. f_equal; nia.
    + now apply step_keeps_configured.
    + now rewrite Hsto.
    + intros m Hm. rewrite Hgs, Hst1. cbn [fst snd].
      pose proof (Hline (m + 1) ltac:(lia)) as H1.
      replace ((state w).1 + delta.1 + m * delta.1)
        with ((state w).1 + (m + 1) * delta.1) by lia.
      replace ((state w).2 + delta.2 + m * delta.2)
        with ((state w).2 + (m + 1) * delta.2) by lia.
      exact H1.
Qed.

(** X14.  Without stochasticity the goal can always be reached from the
    start, whatever the obstacles, which do not block: going Left along the
    last row to the goal's column and then up that column with action 0,
    the agent arrives one cell below the goal, and one more step with
    action 0 ends on the goal with reward 1000 and [done]. *)
Theorem X14_goal_is_reachable (n : Z) (r s : Q) (io : bool) (w0 : World) :
  2 <= n -> (0 <= r)%Q -> (r <= 1)%Q -> (s == 0)%Q ->
  let w := exec (make_game n r s io) w0 in
  let alpha := (goal_state w).2 in
  let path := replicate (Z.to_nat (n - 1 - alpha)) 1
              ++ replicate (Z.to_nat (n - 2)) 0 in
  state (walk path w) = (1, alpha) /\
  exists obs info w',
    step 0 (walk path w) = (Ok (obs, 1000, true, info), w') /\
    state w' = goal_state w.
Proof.
  intros Hn H0 H1 Hs w.
  destruct (make_game_ok n r s io w0 Hn (or_intror (conj H0 H1)))
    as (w1 & a0 & E & Hsize & _ & Hsto & _ & _ & Hstate & Hgoal & Hg & _ & _
        & Hc).
  assert (Ew : w = w1) by (unfold w, exec; now rewrite E).
  rewrite Ew. clear w Ew. rewrite Hgoal. cbn [fst snd]. cbn zeta.
  destruct Hg as (_ & _ & _ & Ha & _).
  assert (Hz : (stochasticity w1 == 0)%Q) by (now rewrite Hsto).
  set (lefts := replicate (Z.to_nat (n - 1 - a0)) 1).
  set (ups := replicate (Z.to_nat (n - 2)) 0).
  assert (Hleft : state (walk lefts w1) = (n - 1, a0)).
  { unfold lefts. rewrite (walk_straight 1 (0, -1)); try assumption.
    - rewrite Hstate. cbn [fst snd]. f_equal; lia.
    - reflexivity.
    - intros m Hm. rewrite Hsize, Hstate. cbn [fst snd].
      apply in_grid_spec. cbn [fst snd]. lia. }
  pose proof (walk_keeps_configured lefts w1 Hc) as Hc2.
  destruct (walk_keeps_settings lefts w1) as (Hgs2 & Hsto2 & Hgoal2).
  assert (Hup : state (walk ups (walk lefts w1)) = (1, a0)).
  { unfold ups. rewrite (walk_straight 0 (-1, 0)); try assumption.
    - rewrite Hleft. cbn [fst snd]. f_equal; lia.
    - reflexivity.
    - now rewrite Hsto2.
    - intros m Hm. rewrite Hgs2, Hsize, Hleft. cbn [fst snd].
      apply in_grid_spec. cbn [fst snd]. lia. }
  rewrite walk_app. split; [exact Hup|].
  set (w2 := walk ups (walk lefts w1)) in *.
  pose proof (walk_keeps_configured ups _ Hc2) as Hc3. fold w2 in Hc3.
  destruct (walk_keeps_settings ups (walk lefts w1)) as (Hgs3 & Hsto3 & Hgoal3).
  fold w2 in Hgs3, Hsto3, Hgoal3.
  assert (Hz3 : (stochasticity w2 == 0)%Q) by (now rewrite Hsto3, Hsto2).
  pose proof (effective_action_zero _ 0 (module_random w2) Hz3) as He.
  pose proof (step_transition 0 w2 0 _ (-1, 0) Hc3 He eq_refl) as Ht.
  cbn zeta in Ht.
  set (w3 := after_step (-1, 0) (advance (module_random w2)) w2) in *.
  assert (Hst3 : state w3 = (0, a0)).
  { unfold w3, after_step, moved. cbn [state set_state]. cbn zeta.
    rewrite Hup, Hgs3, Hgs2, Hsize. cbn [fst snd].
    assert (Hin : in_grid n (1 + -1, a0 + 0) = true)
      by (apply in_grid_spec; cbn [fst snd]; lia).
    rewrite Hin. f_equal; lia. }
  assert (Hg3 : state w3 = goal_state w3).
  { rewrite Hst3. unfold w3, after_step. cbn [goal_state set_state
      set_module_random]. now rewrite Hgoal3, Hgoal2, Hgoal. }
  rewrite Ht, (outcome_goal _ Hg3). cbn [fst snd].
  eexists _, _, _. split; [reflexivity|exact Hst3].
Qed.

Lemma X14_witness :
  2 <= 3 /\ (0 <= 1)%Q /\ (1 <= 1)%Q /\ (0 == 0)%Q /\
  let w := exec (make_game 3 1 0 true)
                (unset (constant_tape 1) (constant_tape 0)) in
  state (walk [1; 0] w) = (1, 1) /\
  exists obs info w',
    step 0 (walk [1; 0] w) = (Ok (obs, 1000, true, info), w') /\
    state w' = (0, 1).
Proof.
  assert (Hq0 : (0 <= 1)%Q) by (vm_compute; discriminate).
  assert (Hq1 : (1 <= 1)%Q) by (vm_compute; discriminate).
  assert (Hz : (0 == 0)%Q) by reflexivity.
  split; [lia|]. split; [exact Hq0|]. split; [exact Hq1|]. split; [exact Hz|].
  pose proof (X14_goal_is_reachable 3 1 0 true
                (unset (constant_tape 1) (constant_tape 0))
                ltac:(lia) Hq0 Hq1 Hz) as H.
  cbn zeta in H |- *.
  set (w := exec (make_game 3 1 0 true)
                 (unset (constant_tape 1) (constant_tape 0))) in *.
  assert (Hg : goal_state w = (0, 1)) by (vm_compute; reflexivity).
  rewrite Hg in H. cbn [fst snd] in H.
  change (replicate (Z.to_nat (3 - 1 - 1)) 1 ++ replicate (Z.to_nat (3 - 2)) 0)
    with [1; 0] in H.
  exact H.
Defined.

(** ** What the seed determines *)

Lemma bind_rel {S A B} (R : S -> S -> Prop) (m : St S A) (k : A -> St S B)
    (s1 s2 : S) :
  same_run R m s1 s2 ->
  (forall a t1 t2, R t1 t2 -> same_run R (k a) t1 t2) ->
  same_run R (bind m k) s1 s2.
Proof.
  unfold same_run, bind. intros [Hr Hs] Hk.
  destruct (m s1) as [[a1|e1] t1], (m s2) as [[a2|e2] t2]; cbn in Hr, Hs;
    try discriminate.
  - injection Hr as ->. now apply Hk.
  - injection Hr as ->. now split.
Qed.

Lemma for_each_rel {S A B} (R : S -> S -> Prop) (xs : list A)
    (body : A -> B -> St S B) :
  (forall x acc s1 s2, R s1 s2 -> same_run R (body x acc) s1 s2) ->
  forall acc s1 s2, R s1 s2 -> same_run R (for_each xs acc body) s1 s2.
Proof.
  intros Hbody. induction xs as [|x xs IH]; intros acc s1 s2 HR.
  - now split.
  - cbn [for_each]. apply bind_rel; [now apply Hbody|].
    intros a t1 t2 Ht. now apply IH.
Qed.

Lemma pure_rel {S A} (R : S -> S -> Prop) (r : Result A) (s1 s2 : S) :
  R s1 s2 -> same_run R (lift r) s1 s2.
Proof. intros H. now split. Qed.

Lemma self_np_random_rel {A} (m : St RandomState A) (s1 s2 : World) :
  np_random s1 = np_random s2 ->
  same_run (fun t1 t2 => np_random t1 = np_random t2) (self_np_random m) s1 s2.
Proof.
  intros H. unfold same_run, self_np_random. rewrite H.
  now destruct (m (np_random s2)).
Qed.

(** The grid drawn depends on the world through [self.np_random] only. *)
Lemma build_asci_art_rel (n : Z) (r : Q) (s1 s2 : World) :
  np_random s1 = np_random s2 ->
  same_run (fun t1 t2 => np_random t1 = np_random t2)
    (build_asci_art n r) s1 s2.
Proof.
  intros H. unfold build_asci_art.
  apply bind_rel; [now apply self_np_random_rel|].
  intros alpha t1 t2 Ht. apply bind_rel; [now apply pure_rel|].
  intros first_row u1 u2 Hu. apply bind_rel; [now apply pure_rel|].
  intros last_row v1 v2 Hv. apply bind_rel.
  - apply for_each_rel; [|exact Hv].
    intros row_idx art x1 x2 Hx. apply bind_rel.
    + apply for_each_rel; [|exact Hx].
      intros col_idx row y1 y2 Hy.
      apply bind_rel; [now apply self_np_random_rel|].
      intros b z1 z2 Hz. destruct (negb (b =? 0)); now split.
    + intros row y1 y2 Hy. now split.
  - intros art x1 x2 Hx. now split.
Qed.

Lemma bind_np_random_only {A B} (m : St World A) (k : A -> St World B) :
  np_random_only m -> (forall a, np_random_only (k a)) ->
  np_random_only (bind m k).
Proof.
  intros Hm Hk s. unfold bind. pose proof (Hm s) as F.
  destruct (m s) as [[a|e] t]; cbn [snd] in *; [|exact F].
  rewrite (Hk a t). rewrite F at 2. reflexivity.
Qed.

Lemma for_each_np_random_only {A B} (xs : list A) (body : A -> B -> St World B)
    (acc : B) :
  (forall x acc, np_random_only (body x acc)) ->
  np_random_only (for_each xs acc body).
Proof.
  intros Hbody. revert acc. induction xs as [|x xs IH]; intros acc.
  - intros s. now destruct s.
  - cbn [for_each]. apply bind_np_random_only; [apply Hbody|].
    intros a. apply IH.
Qed.

Lemma lift_np_random_only {A} (r : Result A) : np_random_only (lift r).
Proof. intros s. now destruct s. Qed.

Lemma self_np_random_only {A} (m : St RandomState A) :
  np_random_only (self_np_random m).
Proof.
  intros s. unfold self_np_random. now destruct (m (np_random s)).
Qed.

Lemma build_asci_art_np_random_only (n : Z) (r : Q) :
  np_random_only (build_asci_art n r).
Proof.
  unfold build_asci_art.
  apply bind_np_random_only; [apply self_np_random_only|].
  intros alpha. apply bind_np_random_only; [apply lift_np_random_only|].
  intros first_row. apply bind_np_random_only; [apply lift_np_random_only|].
  intros last_row. apply bind_np_random_only.
  - apply for_each_np_random_only. intros row_idx art.
    apply bind_np_random_only.
    + apply for_each_np_random_only. intros col_idx row.
      apply bind_np_random_only; [apply self_np_random_only|].
      intros b. destruct (negb (b =? 0)); apply lift_np_random_only.
    + intros row. apply (lift_np_random_only (Ok (art ++ [row]))).
  - intros art. apply (lift_np_random_only (Ok (concat (art ++ [last_row])))).
Qed.

(** The cached image depends on the world through the size and the grid
    only. *)
Lemma get_art_img_rel (s1 s2 : World) :
  gridsize s1 = gridsize s2 -> art s1 = art s2 ->
  run get_art_img s1 = run get_art_img s2.
Proof.
  intros Hn Ha.
  pose (R := fun t1 t2 : World => art t1 = art t2).
  assert (H : same_run R get_art_img s1 s2); [|apply H].
  unfold get_art_img, same_run. rewrite !bind_gets. cbn beta. rewrite Hn.
  apply bind_rel; [now apply pure_rel|].
  intros img t1 t2 Ht.
  apply for_each_rel; [|exact Ht].
  intros i acc u1 u2 Hu.
  apply for_each_rel; [|exact Hu].
  intros j acc' v1 v2 Hv.
  unfold same_run. rewrite !bind_gets. cbn beta. rewrite Hv.
  apply bind_rel; [now apply pure_rel|].
  intros ch x1 x2 Hx.
  apply bind_rel; [now apply pure_rel|].
  intros c y1 y2 Hy. now split.
Qed.

(** X15.  [seed] refuses a negative seed and then changes nothing.  For
    any seed, after [seed] and [make_game], the outcome of the
    configuration and, when it succeeds, every attribute of the object
    depend on the seed and the arguments only: not on what the object held
    before, and not on the module-level generator, which is left as it
    was. *)
Theorem X15_seed_determines_the_game (seeding : Z -> RandomState * Z)
    (sd n : Z) (r s : Q) (io : bool) (w1 w2 : World) :
  let configure := (seed seeding sd ;;; make_game n r s io)%st in
  (sd < 0 -> configure w1 = (Raise GymError, w1)) /\
  run configure w1 = run configure w2 /\
  (run configure w1 = Ok tt ->
   exec configure w1
   = set_module_random (module_random w1) (exec configure w2)).
Proof.
  cbn zeta. unfold run, exec.
  destruct (Z.lt_ge_cases sd 0) as [Hneg|Hpos].
  { rewrite !(bind_raise _ _ _ _ _ (seed_refused seeding sd _ Hneg)).
    split; [reflexivity|]. split; [reflexivity|discriminate]. }
  split; [lia|].
  rewrite !(bind_ok _ _ _ _ _ (seed_run seeding sd _ Hpos)).
  rewrite !make_game_unfold.
  set (u1 := set_stochasticity s (set_rho r (set_gridsize n
               (set_np_random (seeding sd).1 w1)))).
  set (u2 := set_stochasticity s (set_rho r (set_gridsize n
               (set_np_random (seeding sd).1 w2)))).
  destruct (build_asci_art_rel n r u1 u2 eq_refl) as [Hres Hnp].
  pose proof (build_asci_art_np_random_only n r u1) as F1.
  pose proof (build_asci_art_np_random_only n r u2) as F2.
  destruct (build_asci_art n r u1) as [[flat|e] x1],
           (build_asci_art n r u2) as [[flat2|e2] x2];
    cbn [fst snd] in Hres, Hnp, F1, F2; try discriminate.
  2: { injection Hres as ->. split; [reflexivity|discriminate]. }
  injection Hres as <-.
  destruct (reshape flat n n) as [a|e]; [|split; [reflexivity|discriminate]].
  cbn zeta.
  destruct (first_item (argwhere a GOAL_CHAR)) as [goal|e];
    [|split; [reflexivity|discriminate]].
  set (y1 := set_obstacle_states _ (set_state _ (set_goal_state goal
               (set_start_state _ (set_img_observation io (set_art a x1)))))).
  set (y2 := set_obstacle_states _ (set_state _ (set_goal_state goal
               (set_start_state _ (set_img_observation io (set_art a x2)))))).
  assert (Himg : run get_art_img y1 = run get_art_img y2).
  { apply get_art_img_rel; [|reflexivity].
    unfold y1, y2. cbn. now rewrite F1, F2. }
  rewrite Himg.
  destruct (run get_art_img y2) as [img|e];
    [|split; [reflexivity|discriminate]].
  split; [reflexivity|]. intros _. cbn [snd].
  unfold y1, y2. rewrite F1, F2, Hnp. reflexivity.
Qed.

Lemma X15_witness :
  run (seed demo_seeding 42 ;;; make_game 3 (1 # 2) 0 true)%st
      (unset (constant_tape 0) (constant_tape 0)) = Ok tt /\
  exec (seed demo_seeding 42 ;;; make_game 3 (1 # 2) 0 true)%st
       (unset (constant_tape 0) (constant_tape 0))
  = set_module_random (constant_tape 0)
      (exec (seed demo_seeding 42 ;;; make_game 3 (1 # 2) 0 true)%st
            grid3_obstacles).
Proof.
  destruct (X15_seed_determines_the_game demo_seeding 42 3 (1 # 2) 0 true
              (unset (constant_tape 0) (constant_tape 0)) grid3_obstacles)
    as (_ & _ & Hsame).
  assert (Hrun : run (seed demo_seeding 42 ;;; make_game 3 (1 # 2) 0 true)%st
                     (unset (constant_tape 0) (constant_tape 0)) = Ok tt)
    by (vm_compute; reflexivity).
  split; [exact Hrun|]. exact (Hsame Hrun).
Defined.

(** ** Observing after a step, and configurations that fail *)

(** X16.  The observation a step returns is the observation of the world
    it leaves: asking again, through [state_to_oh] or [state_to_img]
    according to the mode, gives the same array, and a [reset] is needed to
    see anything else. *)
Theorem X16_step_observation_is_current (action : Z) (w w' : World)
    (obs : Observation) (reward : Z) (done : bool) (info : Info) :
  configured w ->
  step action w = (Ok (obs, reward, done, info), w') ->
  observe w' = (Ok obs, w') /\
  (img_observation w = false ->
   obs = OneHot (one_hot (gridsize w) (state w')) /\
   state_to_oh w' = (Ok (one_hot (gridsize w) (state w')), w')) /\
  (img_observation w = true ->
   obs = Image (player_image (art_img w) (state w')) /\
   state_to_img w' = (Ok (player_image (art_img w) (state w')), w')).
Proof.
  intros Hc Hs.
  destruct (step_inv action w _ w' Hc Hs) as (a & g & delta & _ & _ & Ew & E).
  pose proof (after_step_configured delta g w Hc) as Hc'. rewrite <- Ew in Hc'.
  injection E as -> _ _ _.
  assert (Hio : img_observation w' = img_observation w) by (now rewrite Ew).
  assert (Hgs : gridsize w' = gridsize w) by (now rewrite Ew).
  assert (Hai : art_img w' = art_img w) by (now rewrite Ew).
  destruct Hc' as (Hc1 & Himg & Hc3 & Hc4 & Hc5 & Hin).
  split; [apply observe_ok; repeat split; assumption || apply Hc1 || apply Himg|].
  unfold observation_of. rewrite Hio, Hgs, Hai. split; intros Hmode;
    rewrite Hmode; (split; [reflexivity|]).
  - rewrite <- Hgs. now apply state_to_oh_ok.
  - rewrite <- Hai. now apply state_to_img_ok.
Qed.

Lemma X16_witness :
  configured grid3 /\
  exists obs reward done info w',
    step 1 grid3 = (Ok (obs, reward, done, info), w') /\
    observe w' = (Ok obs, w') /\
    obs = OneHot [0; 0; 0; 0; 0; 0; 0; 1; 0].
Proof.
  assert (Hc : configured grid3) by by_computation.
  split; [exact Hc|].
  destruct (step 1 grid3) as [[[[[obs r] d] i]|e] w'] eqn:E;
    [|vm_compute in E; discriminate].
  destruct (X16_step_observation_is_current 1 grid3 w' obs r d i Hc E)
    as (Hobs & _ & _).
  exists obs, r, d, i, w'. split; [reflexivity|]. split; [exact Hobs|].
  vm_compute in E. now injection E as <- _ _ _ _.
Defined.

(** X17.  A configuration that is refused has already stored its
    parameters: after a failed [make_game] the object holds the new
    [gridsize], [rho] and [stochasticity] together with the old grid, goal,
    obstacles, image and position, and the module-level generator is
    untouched. *)
Theorem X17_failed_make_game_keeps_old_grid (n : Z) (r s : Q) (io : bool)
    (w : World) :
  n < 2 \/ (3 <= n /\ ((r < 0)%Q \/ (1 < r)%Q)) ->
  let w' := exec (make_game n r s io) w in
  run (make_game n r s io) w = Raise ValueError /\
  gridsize w' = n /\ rho w' = r /\ stochasticity w' = s /\
  art w' = art w /\ art_img w' = art_img w /\
  goal_state w' = goal_state w /\ obstacle_states w' = obstacle_states w /\
  state w' = state w /\ start_state w' = start_state w /\
  img_observation w' = img_observation w /\
  module_random w' = module_random w.
Proof.
  intros Hbad. cbn zeta. unfold run, exec. rewrite make_game_unfold.
  destruct Hbad as [Hn | [Hn Hr]].
  - destruct (Z.eq_dec n 1) as [->|Hne].
    + rewrite build_asci_art_size_1. cbn. repeat split.
    + rewrite build_asci_art_size_le_0 by lia. cbn. repeat split.
  - rewrite build_asci_art_bad_rho by assumption. cbn. repeat split.
Qed.

Lemma X17_witness :
  1 < 2 /\
  run (make_game 1 0 0 false) grid3 = Raise ValueError /\
  gridsize (exec (make_game 1 0 0 false) grid3) = 1 /\
  state (exec (make_game 1 0 0 false) grid3) = (2, 2) /\
  nd_rows (art (exec (make_game 1 0 0 false) grid3)) = 3.
Proof.
  assert (Hn : 1 < 2) by lia.
  split; [exact Hn|].
  destruct (X17_failed_make_game_keeps_old_grid 1 0 0 false grid3
              (or_introl Hn))
    as (Hrun & Hgs & _ & _ & Hart & _ & _ & _ & Hst & _).
  split; [exact Hrun|]. split; [exact Hgs|].
  split; [rewrite Hst; by_computation|rewrite Hart; by_computation].
Defined.

(** ** The movement rule *)

(** X18.  Whenever a step returns, the action carried out is in the table
    and, with the candidate being the current position plus its delta, the
    position becomes the candidate when both coordinates of the candidate
    are in [[0, gridsize)] and is unchanged otherwise.  In particular, from
    (0, 0) on a grid whose cell (0, 0) is empty, carrying out action 0,
    delta (-1, 0), or action 1, delta (0, -1), leaves the position at
    (0, 0) with reward -1, [done] false and constraint cost 0.  A step with
    an action of the table returns. *)
Theorem X18_movement_rule (action : Z) (w : World) :
  configured w ->
  ((0 <= stochasticity w)%Q -> (stochasticity w <= 1)%Q -> 0 <= action <= 3 ->
   exists r w', step action w = (Ok r, w')) /\
  forall obs reward done info w',
    step action w = (Ok (obs, reward, done, info), w') ->
    exists a g delta,
      effective_action (stochasticity w) action (module_random w) = (Ok a, g) /\
      ACTIONS !! a = Some delta /\
      let candidate := ((state w).1 + delta.1, (state w).2 + delta.2) in
      let inside := 0 <= candidate.1 < gridsize w /\
                    0 <= candidate.2 < gridsize w in
      (inside -> state w' = candidate) /\
      (~ inside -> state w' = state w) /\
      (state w = (0, 0) -> getitem2 (art w) 0 0 = Ok EMPTY_CHAR ->
       a = 0 \/ a = 1 ->
       state w' = (0, 0) /\ reward = -1 /\ done = false /\
       constraint_costs info = [0]).
Proof.
  intros Hc. split; [now apply step_returns|].
  intros obs reward done info w' Hs.
  destruct (step_inv action w _ w' Hc Hs) as (a & g & delta & He & Ha & Ew & E).
  exists a, g, delta. split; [exact He|]. split; [exact Ha|]. cbn zeta.
  assert (Hst : state w' = moved (gridsize w) (state w) delta)
    by (now rewrite Ew).
  pose proof (in_grid_spec (gridsize w)
                ((state w).1 + delta.1, (state w).2 + delta.2)) as Hin.
  cbn [fst snd] in *.
  split; [|split].
  - intros Hi. rewrite Hst. unfold moved. cbn zeta.
    now rewrite (proj2 Hin Hi).
  - intros Hi. rewrite Hst. unfold moved. cbn zeta.
    destruct (in_grid _ _) eqn:Ei; [|reflexivity].
    exfalso. apply Hi. now apply Hin.
  - intros H00 Hcell Hact. clear Hin.
    assert (Hd : delta = (-1, 0) \/ delta = (0, -1)).
    { rewrite ACTIONS_lookup in Ha.
      destruct Hact as [-> | ->]; cbn in Ha; injection Ha as <-;
        [now left|now right]. }
    assert (Hgrid : 0 < gridsize w).
    { destruct Hc as (_ & _ & _ & _ & _ & Hs0).
      apply in_grid_spec in Hs0. lia. }
    assert (Hstay : state w' = (0, 0)).
    { rewrite Hst, H00. unfold moved. cbn zeta.
      destruct (in_grid (gridsize w) _) eqn:Ei; [|reflexivity].
      apply in_grid_spec in Ei. cbn [fst snd] in Ei.
      destruct Hd as [-> | ->]; cbn [fst snd] in Ei; lia. }
    split; [exact Hstay|].
    pose proof (after_step_configured delta g w Hc) as Hc'.
    rewrite <- Ew in Hc'.
    assert (Hart : art w' = art w) by (now rewrite Ew).
    assert (Hne : state w' <> goal_state w').
    { intros Hg. pose proof (goal_cell w' Hc') as Hgc.
      rewrite <- Hg, Hstay, Hart in Hgc. cbn [fst snd] in Hgc.
      rewrite Hcell in Hgc. discriminate. }
    injection E as _ -> -> ->. rewrite (outcome_not_goal _ Hne).
    cbn [fst snd constraint_costs]. repeat split.
    destruct (list_contains (obstacle_states w') (state w')) eqn:El;
      [|reflexivity].
    apply (obstacle_contains w' Hc') in El.
    rewrite Hstay, Hart in El. cbn [fst snd] in El.
    rewrite Hcell in El. discriminate.
Qed.

Lemma X18_witness :
  configured (walk [1; 1; 0; 0] grid3) /\
  state (walk [1; 1; 0; 0] grid3) = (0, 0) /\
  exists obs info w',
    step 0 (walk [1; 1; 0; 0] grid3) = (Ok (obs, -1, false, info), w') /\
    state w' = (0, 0) /\ constraint_costs info = [0].
Proof.
  assert (Hc : configured (walk [1; 1; 0; 0] grid3)) by by_computation.
  split; [exact Hc|]. split; [by_computation|].
  destruct (X18_movement_rule 0 (walk [1; 1; 0; 0] grid3) Hc) as [_ Hlaw].
  destruct (step 0 (walk [1; 1; 0; 0] grid3))
    as [[[[[obs r] d] i]|e] w'] eqn:E; [|vm_compute in E; discriminate].
  destruct (Hlaw obs r d i w' eq_refl)
    as (a & g & delta & He & Ha & _ & _ & Hcorner).
  assert (Ea : a = 0).
  { rewrite effective_action_zero in He by by_computation. congruence. }
  destruct Hcorner as (Hs & -> & -> & Hi);
    [by_computation | by_computation | now left |].
  exists obs, i, w'. repeat split; assumption.
Defined.
